(** * CSS-transition disabler for views, and the Easy Image glue plugin

    A shallow embedding of

    - [packages/ckeditor5-ui/src/bindings/injectcsstransitiondisabler.ts]:
      the decorator [injectCssTransitionDisabler] and the class mixin
      [CssTransitionMixin];
    - the Easy Image plugin ([EasyImage.init]).

    Views are JavaScript objects that are mutated in place, so they live in
    a store indexed by references, and the code runs in a state-and-exception
    monad over that store: a thrown exception keeps every mutation made
    before it. *)

From stdpp Require Import gmap strings list fin_maps.

Open Scope string_scope.
Open Scope list_scope.
Open Scope stdpp_scope.

(** ** Values, properties, templates *)

(** Object references. *)
Abbreviation loc := nat (only parsing).

(** Function values found on a view.  The two arrow functions created by the
    decorator close over [decorated]; the three methods of the mixin class use
    [this]; every other method of a view is known by its name only. *)
Inductive Method : Type :=
| ArrowDisable (decorated : loc)
| ArrowEnable (decorated : loc)
| MixinDisable
| MixinEnable
| MixinInitialize
| Foreign (name : string).

Inductive Value : Type :=
| VUndefined
| VBool (b : bool)
| VNumber (n : Z)
| VString (s : string)
| VRef (l : loc)
| VFunction (m : Method).

#[global] Instance Method_eq_dec : EqDecision Method.
Proof. solve_decision. Defined.

#[global] Instance Value_eq_dec : EqDecision Value.
Proof. solve_decision. Defined.

(** JavaScript truthiness. *)
Definition truthy (v : Value) : bool :=
  match v with
  | VUndefined => false
  | VBool b => b
  | VNumber n => negb (n =? 0)%Z
  | VString s => negb (String.eqb s EmptyString)
  | VRef _ => true
  | VFunction _ => true
  end.

(** An own property is either declared through the observable facility
    ([view.set]) or a plain data property. *)
Inductive PropKind : Type := Observable | PlainField.

#[global] Instance PropKind_eq_dec : EqDecision PropKind.
Proof. solve_decision. Defined.

Record Property : Type := mkProperty {
  prop_kind : PropKind;
  prop_value : Value
}.

(** One entry of an attribute's value list in a template: a string literal
    or the rule made by [bindTemplate.if]. *)
Inductive AttributeValue : Type :=
| Literal (s : string)
| IfBinding (attribute : string) (valueIfTrue : string).

Record Template : Type := mkTemplate {
  tag : string;
  attributes : gmap string (list AttributeValue)
}.

(** The partial descriptor handed to [extendTemplate]. *)
Record TemplateDefinition : Type := mkTemplateDefinition {
  def_attributes : gmap string (list AttributeValue)
}.

(** A change notification fired by the observable facility. *)
Record ChangeEvent : Type := mkChange {
  change_name : string;
  change_value : Value
}.

#[global] Instance ChangeEvent_eq_dec : EqDecision ChangeEvent.
Proof. solve_decision. Defined.

Record View : Type := mkView {
  own : gmap string Property;        (* own properties, data and functions *)
  proto : gmap string Method;        (* methods reached through the prototype *)
  template : option Template;        (* [None] before [setTemplate] *)
  fired : list ChangeEvent           (* change notifications, oldest first *)
}.

Definition with_own (f : gmap string Property → gmap string Property) (v : View) : View :=
  mkView (f (own v)) (proto v) (template v) (fired v).

Definition with_template (t : option Template) (v : View) : View :=
  mkView (own v) (proto v) t (fired v).

Definition with_fired (f : list ChangeEvent → list ChangeEvent) (v : View) : View :=
  mkView (own v) (proto v) (template v) (f (fired v)).

(** Property read [view[name]]: own properties first, then the prototype. *)
Definition get (v : View) (name : string) : Value :=
  match own v !! name with
  | Some p => prop_value p
  | None =>
      match proto v !! name with
      | Some m => VFunction m
      | None => VUndefined
      end
  end.

(** Modelled from the spec: the change propagation of the observable facility
    (a plain assignment to a property declared through [set] triggers it),
    whose code is not part of the sources at hand.  The view records the
    notification. *)
Definition notify (name : string) (x : Value) (v : View) : View :=
  with_fired (λ evs, evs ++ [mkChange name x]) v.

(** Plain assignment [view[name] = x].  A property declared observable keeps
    its kind and the write is propagated; any other name becomes (or stays) a
    plain data property. *)
Definition assign_view (name : string) (x : Value) (v : View) : View :=
  match own v !! name with
  | Some (mkProperty Observable _) =>
      notify name x (with_own (insert name (mkProperty Observable x)) v)
  | _ => with_own (insert name (mkProperty PlainField x)) v
  end.

(** A class field initialiser [public name = x] defines a plain own data
    property on the instance. *)
Definition define_field_view (name : string) (x : Value) (v : View) : View :=
  with_own (insert name (mkProperty PlainField x)) v.

(** Modelled from the spec: [View.set] (the spec's [declareObservable]), whose
    code is not part of the sources at hand.  It registers a named property
    with an initial value; later plain assignments to it are propagated. *)
Definition set_view (name : string) (x : Value) (v : View) : View :=
  with_own (insert name (mkProperty Observable x)) v.

(** Modelled from the spec: the merge done by [View.extendTemplate] (the
    spec's [extendTemplate]), whose code is not part of the sources at hand.
    The merge goes by attribute key and appends the new entries after the
    ones already there. *)
Definition extend_attributes (old ext : gmap string (list AttributeValue))
  : gmap string (list AttributeValue) :=
  union_with (λ a b, Some (a ++ b)) old ext.

Definition Template_extend (t : Template) (d : TemplateDefinition) : Template :=
  mkTemplate (tag t) (extend_attributes (attributes t) (def_attributes d)).

(** Modelled from the spec: [bindTemplate.if] (the spec's [bindIf]), whose
    code is not part of the sources at hand.  It makes the rule value. *)
Definition bindTemplate_if (attribute valueIfTrue : string) : AttributeValue :=
  IfBinding attribute valueIfTrue.

(** The value list of one attribute of a view's template. *)
Definition attribute_values (v : View) (name : string) : list AttributeValue :=
  match template v with
  | Some t => default [] (attributes t !! name)
  | None => []
  end.

(** Modelled from the spec: how the render engine evaluates an attribute's
    value list on one render pass.  A literal is output as it is; a rule made
    by [bindTemplate.if] outputs its value iff the named property is truthy. *)
Definition render_value (v : View) (a : AttributeValue) : list string :=
  match a with
  | Literal s => [s]
  | IfBinding p t => if truthy (get v p) then [t] else []
  end.

Definition render_attribute (v : View) (name : string) : list string :=
  flat_map (render_value v) (attribute_values v name).

(** A token can come out of an entry only if the entry carries it. *)
Definition carries (tok : string) (a : AttributeValue) : bool :=
  match a with
  | Literal s => bool_decide (s = tok)
  | IfBinding _ t => bool_decide (t = tok)
  end.

(** ** The store and the monad *)

Inductive Error : Type :=
| DanglingReference (l : loc)
| TemplateMissing (l : loc)
| NotCallable (name : string)
| ForeignError (name : string).

Inductive Outcome (A : Type) : Type :=
| Ok (a : A)
| Throw (e : Error).
Arguments Ok {A} a.
Arguments Throw {A} e.

#[global] Instance Error_eq_dec : EqDecision Error.
Proof. solve_decision. Defined.

#[global] Instance Outcome_eq_dec {A} `{EqDecision A} : EqDecision (Outcome A).
Proof. solve_decision. Defined.

Abbreviation Heap := (gmap nat View) (only parsing).

Definition M (A : Type) : Type := Heap → Outcome A * Heap.

Definition ret {A} (a : A) : M A := λ h, (Ok a, h).

Definition bind {A B} (m : M A) (f : A → M B) : M B :=
  λ h, match m h with
       | (Ok a, h') => f a h'
       | (Throw e, h') => (Throw e, h')
       end.

Definition throw {A} (e : Error) : M A := λ h, (Throw e, h).

#[global] Instance M_ret : MRet M := @ret.
#[global] Instance M_bind : MBind M := λ A B f m, bind m f.

(** Apply an in-place mutation to the object behind a reference. *)
Definition update (l : loc) (f : View → View) : M unit :=
  λ h, match h !! l with
       | Some v => (Ok tt, <[l := f v]> h)
       | None => (Throw (DanglingReference l), h)
       end.

Definition load (l : loc) : M View :=
  λ h, match h !! l with
       | Some v => (Ok v, h)
       | None => (Throw (DanglingReference l), h)
       end.

(** Allocation of a new object with the given prototype. *)
Definition alloc (p : gmap string Method) : M loc :=
  λ h, let l := fresh (dom h) in (Ok l, <[l := mkView ∅ p None []]> h).

Definition assign (l : loc) (name : string) (x : Value) : M unit :=
  update l (assign_view name x).

Definition View_set (l : loc) (name : string) (x : Value) : M unit :=
  update l (set_view name x).

Definition define_field (l : loc) (name : string) (x : Value) : M unit :=
  update l (define_field_view name x).

(** [view.extendTemplate( definition )]: fails when the view has no template
    to merge into. *)
Definition extendTemplate (l : loc) (d : TemplateDefinition) : M unit :=
  v ← load l;
  match template v with
  | Some t => update l (with_template (Some (Template_extend t d)))
  | None => throw (TemplateMissing l)
  end.

(** ** The capability: names shared by the decorator and the mixin *)

Definition flag_name : string := "_isCssTransitionsDisabled".
Definition class_token : string := "ck-transitions-disabled".
Definition disable_name : string := "disableCssTransitions".
Definition enable_name : string := "enableCssTransitions".
Definition initialize_name : string := "initializeMixin".

(** The rule both paths hand to [extendTemplate]:
    [bindTemplate.if( '_isCssTransitionsDisabled', 'ck-transitions-disabled' )]. *)
Definition bound_rule : AttributeValue := bindTemplate_if flag_name class_token.

(** The descriptor [{ attributes: { class: [ rule ] } }]. *)
Definition transition_definition : TemplateDefinition :=
  mkTemplateDefinition {[ "class" := [bound_rule] ]}.

(** ** injectCssTransitionDisabler *)

(** The function has no [return]: its result is [undefined], and its type
    [asserts view is ViewWithCssTransitionDisabler] narrows the argument. *)
Definition injectCssTransitionDisabler (view : loc) : M Value :=
  let decorated := view in
  View_set decorated flag_name (VBool false);;
  assign decorated disable_name (VFunction (ArrowDisable decorated));;
  assign decorated enable_name (VFunction (ArrowEnable decorated));;
  extendTemplate decorated transition_definition;;
  mret VUndefined.

(** ** Classes and CssTransitionMixin *)

(** A class: the methods of its prototype chain and its constructor, which
    initialises the object [this] that [new] has allocated. *)
Record Class : Type := mkClass {
  prototype : gmap string Method;
  ctor : loc → list Value → M unit
}.

Definition new_ (C : Class) (args : list Value) : M loc :=
  this ← alloc (prototype C);
  ctor C this args;;
  mret this.

(** The three methods [class Mixin] declares. *)
Definition Mixin_methods : gmap string Method :=
  {[ disable_name := MixinDisable;
     enable_name := MixinEnable;
     initialize_name := MixinInitialize ]}.

(** [abstract class Mixin extends base]: the implicit constructor passes its
    arguments on to [base], then the field initialiser runs.  The methods of
    [Mixin] come before those of [base] in the prototype chain. *)
Definition CssTransitionMixin (base : Class) : Class :=
  mkClass (Mixin_methods ∪ prototype base)
          (λ this args,
             ctor base this args;;
             define_field this flag_name (VBool false)).

(** ** Calling methods *)

(** A call to one of the two control methods. *)
Inductive Toggle : Type := Disable | Enable.

Section Calls.

(** What the methods defined elsewhere do when called on a receiver. *)
Variable foreign : string → loc → M Value.

Definition invoke (this : loc) (m : Method) : M Value :=
  match m with
  | ArrowDisable decorated => assign decorated flag_name (VBool true);; mret VUndefined
  | ArrowEnable decorated => assign decorated flag_name (VBool false);; mret VUndefined
  | MixinDisable => assign this flag_name (VBool true);; mret VUndefined
  | MixinEnable => assign this flag_name (VBool false);; mret VUndefined
  | MixinInitialize => extendTemplate this transition_definition;; mret VUndefined
  | Foreign name => foreign name this
  end.

(** [view.name()] *)
Definition call (l : loc) (name : string) : M Value :=
  v ← load l;
  match get v name with
  | VFunction m => invoke l m
  | _ => throw (NotCallable name)
  end.

Definition disableCssTransitions (l : loc) : M Value := call l disable_name.
Definition enableCssTransitions (l : loc) : M Value := call l enable_name.
Definition initializeMixin (l : loc) : M Value := call l initialize_name.

Definition toggle (l : loc) (t : Toggle) : M Value :=
  match t with
  | Disable => disableCssTransitions l
  | Enable => enableCssTransitions l
  end.

(** A sequence of calls to the two control methods, in order. *)
Fixpoint toggles (l : loc) (ts : list Toggle) : M unit :=
  match ts with
  | [] => mret tt
  | t :: ts' => toggle l t;; toggles l ts'
  end.

End Calls.

(** [View.setTemplate], as the documentation of the decorator uses it in a
    view's constructor before the capability is added.
    Modelled from the spec: the base template is established by assigning the
    view's template descriptor; the code of [View] is not part of the sources
    at hand. *)
Definition setTemplate (l : loc) (t : Template) : M unit :=
  update l (with_template (Some t)).

(** The two ways of getting a view with the capability, as the documentation
    shows them: a subclass of [base] whose constructor sets its template and
    then decorates [this], and a subclass of [CssTransitionMixin( base )]
    whose constructor sets its template and then calls [initializeMixin]. *)
Definition InjectedView (base : Class) (t : Template) : Class :=
  mkClass (prototype base)
          (λ this args,
             ctor base this args;;
             setTemplate this t;;
             injectCssTransitionDisabler this;;
             mret tt).

Definition MixedView (foreign : string → loc → M Value) (base : Class) (t : Template) : Class :=
  mkClass (prototype (CssTransitionMixin base))
          (λ this args,
             ctor (CssTransitionMixin base) this args;;
             setTemplate this t;;
             initializeMixin foreign this;;
             mret tt).

(** ** The Easy Image plugin *)

Module EasyImage.

(** The editor a plugin belongs to; its plugin collection is looked up by
    plugin name. *)
Record Editor : Type := mkEditor {
  editor_id : nat;
  plugins : gset string
}.

(** Modelled from the spec: [editor.plugins.has( name )] queries the plugin
    registry by name; the code of the plugin collection is not part of the
    sources at hand. *)
Definition has (e : Editor) (name : string) : bool :=
  bool_decide (name ∈ plugins e).

(** One diagnostic: its identifier and the data passed along. *)
Record Warning : Type := mkWarning {
  warning_id : string;
  warning_data : Editor
}.

(** Modelled from the spec: [logWarning( id, data )] emits one diagnostic
    event; the code of the logging utility is not part of the sources at
    hand.  The console is the list of diagnostics emitted so far. *)
Definition logWarning (id : string) (data : Editor) (console : list Warning)
  : list Warning :=
  console ++ [mkWarning id data].

Record Plugin : Type := mkPlugin { editor : Editor }.

Definition pluginName : string := "EasyImage".

Definition init (this : Plugin) (console : list Warning) : list Warning :=
  let editor := editor this in
  if negb (has editor "ImageBlockEditing") && negb (has editor "ImageInlineEditing")
  then logWarning "easy-image-image-feature-missing" editor console
  else console.

End EasyImage.

(** ** States the code leaves behind *)

(** The object the decorator leaves behind when the view has template [t]. *)
Definition injected (l : nat) (t : Template) (v : View) : View :=
  with_template (Some (Template_extend t transition_definition))
    (assign_view enable_name (VFunction (ArrowEnable l))
       (assign_view disable_name (VFunction (ArrowDisable l))
          (set_view flag_name (VBool false) v))).

(** What it leaves behind when there is no template: flag and methods are
    already in place when [extendTemplate] throws. *)
Definition half_injected (l : nat) (v : View) : View :=
  assign_view enable_name (VFunction (ArrowEnable l))
    (assign_view disable_name (VFunction (ArrowDisable l))
       (set_view flag_name (VBool false) v)).

(** The value a control method writes to the flag. *)
Definition toggle_value (t : Toggle) : bool :=
  match t with
  | Disable => true
  | Enable => false
  end.

(** A view carries the capability when its two control methods are the ones
    the decorator assigned to it, or the ones of the mixin class. *)
Definition equipped (l : nat) (v : View) : Prop :=
  (get v disable_name = VFunction (ArrowDisable l)
   ∧ get v enable_name = VFunction (ArrowEnable l))
  ∨ (get v disable_name = VFunction MixinDisable
     ∧ get v enable_name = VFunction MixinEnable).

(** The state of a view after a sequence of calls. *)
Definition after_toggles (ts : list Toggle) (v : View) : View :=
  fold_left (λ w t, assign_view flag_name (VBool (toggle_value t)) w) ts v.

(** The constructor of [C], run with arguments [args] on a newly allocated
    object whose prototype chain holds the methods [P], returns normally and
    leaves the view [v] behind the new reference, in the store [h']. *)
Definition builds (C : Class) (P : gmap string Method) (args : list Value)
    (h : gmap nat View) (v : View) (h' : gmap nat View) : Prop :=
  ctor C (fresh (dom h)) args (<[fresh (dom h) := mkView ∅ P None []]> h) = (Ok tt, h')
  ∧ h' !! fresh (dom h) = Some v.

(** The constructor of the base class has left the prototype chain of the
    instance alone and has put no own property in front of the three methods
    of the mixin. *)
Definition unshadowed (base : Class) (v : View) : Prop :=
  proto v = prototype (CssTransitionMixin base)
  ∧ own v !! disable_name = None
  ∧ own v !! enable_name = None
  ∧ own v !! initialize_name = None.

(** The instance a mixin-composed class makes from what [base] built. *)
Definition mixed (v : View) : View := define_field_view flag_name (VBool false) v.

(** What [new MixedView( ...args )] leaves behind: the field, the template,
    and the merge done by [initializeMixin]. *)
Definition initialized (t : Template) (v : View) : View :=
  with_template (Some (Template_extend t transition_definition))
    (with_template (Some t) (mixed v)).

(** ** What a caller can see of a view *)

(** [view._isCssTransitionsDisabled] *)
Definition read_flag (l : nat) : M Value :=
  v ← load l;
  mret (get v flag_name).

(** The value list of attribute [a] of the view behind [l]. *)
Definition attribute_at (h : gmap nat View) (l : nat) (a : string) : list AttributeValue :=
  from_option (λ v, attribute_values v a) [] (h !! l).

(** What the last call of a sequence wrote to the flag; [false], the initial
    value, when there was no call. *)
Definition last_written (ts : list Toggle) : bool :=
  from_option toggle_value false (last ts).

(** The entries of a list never output the class token. *)
Definition token_free (l : list AttributeValue) : bool :=
  forallb (λ a, negb (carries class_token a)) l.

(** Two states of a view agree on everything but the notifications fired. *)
Definition same_state (v w : View) : Prop :=
  own v = own w ∧ proto v = proto w ∧ template v = template w.

(** Construct an instance, then call the control methods in sequence. *)
Definition session (foreign : string → nat → M Value) (C : Class)
    (args : list Value) (ts : list Toggle) : M nat :=
  l ← new_ C args;
  toggles foreign l ts;;
  mret l.

(** The call evaluates to the reference it was given. *)
Definition returns_its_view (l : nat) (h : gmap nat View) : Prop :=
  fst (injectCssTransitionDisabler l h) = Ok (VRef l).

#[global] Instance returns_its_view_dec (l : nat) (h : gmap nat View) :
  Decision (returns_its_view l h).
Proof. unfold returns_its_view. apply _. Defined.

(** ** Callers *)

(** [dst[name] = src[name]]: a method of one view handed to another. *)
Definition copy_property (src dst : nat) (name : string) : M unit :=
  v ← load src;
  assign dst name (get v name).

(** ** Sample data *)

Module Sample.

(** A view with template [<div class="a b" role="dialog">], one observable
    property and one method. *)
Definition tpl : Template :=
  mkTemplate "div" {[ "class" := [Literal "a"; Literal "b"]; "role" := [Literal "dialog"] ]}.

Definition view0 : View :=
  mkView {[ "isVisible" := mkProperty Observable (VBool true) ]}
         {[ "render" := Foreign "render" ]} (Some tpl) [].

Definition heap0 : gmap nat View :=
  {[ 3 := mkView ∅ ∅ None []; 7 := view0 ]}.

(** A view without template. *)
Definition bare : View := mkView ∅ ∅ None [].

(** No method defined elsewhere is ever called below. *)
Definition foreign : string → nat → M Value := λ n _, throw (ForeignError n).

(** A base class whose constructor stores its first argument. *)
Definition Base : Class :=
  mkClass {[ "render" := Foreign "render" ]}
          (λ this args, assign this "label" (default VUndefined (head args))).

Definition args0 : list Value := [VString "Save"; VNumber 2].

(** The view after the decorator has run on [heap0] at [7]. *)
Definition heap1 : gmap nat View := snd (injectCssTransitionDisabler 7 heap0).

(** The store and the view the constructor of [Base] leaves behind when it
    runs for a new instance of a class with the prototype chain [P]. *)
Definition built (P : gmap string Method) : gmap nat View :=
  snd (ctor Base (fresh (dom heap0)) args0
         (<[fresh (dom heap0) := mkView ∅ P None []]> heap0)).

Definition built_view (P : gmap string Method) : View :=
  default bare (built P !! fresh (dom heap0)).

Definition heapA : gmap nat View := built (prototype Base).
Definition viewA : View := built_view (prototype Base).
Definition heapB : gmap nat View := built (prototype (CssTransitionMixin Base)).
Definition viewB : View := built_view (prototype (CssTransitionMixin Base)).

(** An instance of [CssTransitionMixin( Base )] whose template is set and
    whose [initializeMixin] has not been called yet. *)
Definition viewM : View := with_template (Some tpl) (mixed viewB).
Definition heapM : gmap nat View := <[fresh (dom heap0) := viewM]> heapB.

End Sample.

Module SampleMore.

(** The store in which the instance of [CssTransitionMixin( Base )] has no
    template yet. *)
Definition heapN : gmap nat View :=
  <[fresh (dom Sample.heap0) := mixed Sample.viewB]> Sample.heapB.

(** An editor with the upload plugins only, and one with the block images. *)
Definition editor_without : EasyImage.Editor :=
  EasyImage.mkEditor 1 {[ "ImageUpload"; "CloudServicesUploadAdapter" ]}.

Definition editor_with : EasyImage.Editor :=
  EasyImage.mkEditor 2 {[ "ImageUpload"; "ImageBlockEditing" ]}.

End SampleMore.

(** * Properties *)

(** ** The monad and the store *)

Lemma bind_run {A B} (m : M A) (f : A → M B) (h : gmap nat View) :
  (m ≫= f) h = match m h with
               | (Ok a, h') => f a h'
               | (Throw e, h') => (Throw e, h')
               end.
Proof. reflexivity. Qed.

Lemma update_run (l : nat) (f : View → View) (h : gmap nat View) (v : View) :
  h !! l = Some v → update l f h = (Ok tt, <[l := f v]> h).
Proof. intros H. unfold update. by rewrite H. Qed.

Lemma load_run (l : nat) (h : gmap nat View) (v : View) :
  h !! l = Some v → load l h = (Ok v, h).
Proof. intros H. unfold load. by rewrite H. Qed.

Lemma extendTemplate_run (l : nat) (d : TemplateDefinition) (h : gmap nat View)
    (v : View) (t : Template) :
  h !! l = Some v → template v = Some t →
  extendTemplate l d h = (Ok tt, <[l := with_template (Some (Template_extend t d)) v]> h).
Proof.
  intros Hl Ht. unfold extendTemplate.
  rewrite bind_run, (load_run _ _ _ Hl), Ht. by apply update_run.
Qed.

Lemma extendTemplate_missing (l : nat) (d : TemplateDefinition) (h : gmap nat View)
    (v : View) :
  h !! l = Some v → template v = None →
  extendTemplate l d h = (Throw (TemplateMissing l), h).
Proof.
  intros Hl Ht. unfold extendTemplate.
  by rewrite bind_run, (load_run _ _ _ Hl), Ht.
Qed.

(** One more in-place mutation of the object just written. *)
Ltac run_update :=
  rewrite bind_run, (update_run _ _ _ _ (lookup_insert_eq _ _ _)), insert_insert_eq.

(** ** Reading after writing *)

Lemma assign_view_own (n : string) (x : Value) (v : View) :
  ∃ k, own (assign_view n x v) = <[n := mkProperty k x]> (own v).
Proof.
  unfold assign_view.
  destruct (own v !! n) as [[[] ?]|]; simpl; eauto.
Qed.

Lemma get_assign_eq (n : string) (x : Value) (v : View) :
  get (assign_view n x v) n = x.
Proof.
  destruct (assign_view_own n x v) as [k Hk].
  unfold get. by rewrite Hk, lookup_insert_eq.
Qed.

Lemma assign_view_proto (n : string) (x : Value) (v : View) :
  proto (assign_view n x v) = proto v.
Proof. unfold assign_view. by destruct (own v !! n) as [[[] ?]|]. Qed.

Lemma assign_view_template (n : string) (x : Value) (v : View) :
  template (assign_view n x v) = template v.
Proof. unfold assign_view. by destruct (own v !! n) as [[[] ?]|]. Qed.

Lemma own_assign_ne (n n' : string) (x : Value) (v : View) :
  n ≠ n' → own (assign_view n x v) !! n' = own v !! n'.
Proof.
  intros Hne. destruct (assign_view_own n x v) as [k Hk].
  by rewrite Hk, lookup_insert_ne.
Qed.

Lemma get_assign_ne (n n' : string) (x : Value) (v : View) :
  n ≠ n' → get (assign_view n x v) n' = get v n'.
Proof.
  intros Hne. unfold get.
  by rewrite own_assign_ne, assign_view_proto.
Qed.

(** The notifications of an assignment: none, or one that names the
    property written. *)
Lemma assign_view_fired (n : string) (x : Value) (v : View) :
  fired (assign_view n x v) =
    fired v ++ match prop_kind <$> own v !! n with
               | Some Observable => [mkChange n x]
               | _ => []
               end.
Proof.
  unfold assign_view.
  destruct (own v !! n) as [[[] ?]|]; simpl; by rewrite ?app_nil_r.
Qed.

(** Kind of the property after an assignment: an observable one stays
    observable, anything else is a plain data property. *)
Lemma assign_view_kind (n : string) (x : Value) (v : View) :
  prop_kind <$> own (assign_view n x v) !! n =
    Some match prop_kind <$> own v !! n with
         | Some Observable => Observable
         | _ => PlainField
         end.
Proof.
  unfold assign_view.
  destruct (own v !! n) as [[[] ?]|]; simpl; by rewrite lookup_insert_eq.
Qed.

(** ** Template extension *)

Lemma extend_attributes_class (old : gmap string (list AttributeValue)) :
  extend_attributes old (def_attributes transition_definition) !! "class"
  = Some (default [] (old !! "class") ++ [bound_rule]).
Proof.
  unfold extend_attributes, transition_definition; simpl.
  rewrite lookup_union_with, lookup_singleton_eq.
  by destruct (old !! "class").
Qed.

Lemma extend_attributes_other (old : gmap string (list AttributeValue)) (a : string) :
  a ≠ "class" →
  extend_attributes old (def_attributes transition_definition) !! a = old !! a.
Proof.
  intros Hne. unfold extend_attributes, transition_definition; simpl.
  rewrite lookup_union_with, lookup_singleton_ne by done.
  by destruct (old !! a).
Qed.

Lemma attribute_values_extend_class (t : Template) (v : View) :
  attribute_values (with_template (Some (Template_extend t transition_definition)) v) "class"
  = default [] (attributes t !! "class") ++ [bound_rule].
Proof.
  unfold attribute_values; simpl. by rewrite extend_attributes_class.
Qed.

Lemma attribute_values_extend_other (t : Template) (v : View) (a : string) :
  a ≠ "class" →
  attribute_values (with_template (Some (Template_extend t transition_definition)) v) a
  = default [] (attributes t !! a).
Proof.
  intros Hne. unfold attribute_values; simpl. by rewrite extend_attributes_other.
Qed.

(** ** Rendering *)

Lemma render_value_carries (v : View) (a : AttributeValue) (tok : string) :
  tok ∈ render_value v a → carries tok a = true.
Proof.
  destruct a as [s|p t]; simpl.
  - intros ->%list_elem_of_singleton. by apply bool_decide_eq_true.
  - destruct (truthy (get v p)).
    + intros ->%list_elem_of_singleton. by apply bool_decide_eq_true.
    + by intros ?%not_elem_of_nil.
Qed.

Lemma flat_map_elem_of {A B} (f : A → list B) (l : list A) (y : B) :
  y ∈ flat_map f l ↔ ∃ x, x ∈ l ∧ y ∈ f x.
Proof.
  rewrite list_elem_of_In, in_flat_map.
  split; intros (x & Hx & Hy); exists x; by rewrite ?list_elem_of_In in *.
Qed.

(** Entries that do not carry a token never output it, whatever the state of
    the view. *)
Lemma render_entries_free (v : View) (l : list AttributeValue) (tok : string) :
  forallb (λ a, negb (carries tok a)) l = true →
  tok ∉ flat_map (render_value v) l.
Proof.
  intros Hfree [a [Ha Hin]]%flat_map_elem_of.
  apply render_value_carries in Hin.
  rewrite forallb_forall in Hfree.
  apply list_elem_of_In, Hfree in Ha. by rewrite Hin in Ha.
Qed.

(** With the rule appended to entries that do not carry the token, the token
    is output iff the flag is truthy. *)
Lemma render_bound_rule (v : View) (l : list AttributeValue) :
  forallb (λ a, negb (carries class_token a)) l = true →
  class_token ∈ flat_map (render_value v) (l ++ [bound_rule])
  ↔ truthy (get v flag_name) = true.
Proof.
  intros Hfree. rewrite flat_map_app, elem_of_app. simpl. rewrite app_nil_r.
  split.
  - intros [Hin | Hin]; [by apply render_entries_free in Hin |].
    destruct (truthy (get v flag_name)); [done | by apply not_elem_of_nil in Hin].
  - intros ->. right. by apply list_elem_of_singleton.
Qed.

(** ** The decorator, step by step *)

Lemma injectCssTransitionDisabler_run (h : gmap nat View) (l : nat) (v : View) (t : Template) :
  h !! l = Some v → template v = Some t →
  injectCssTransitionDisabler l h = (Ok VUndefined, <[l := injected l t v]> h).
Proof.
  intros Hl Ht. unfold injectCssTransitionDisabler, View_set, assign.
  rewrite bind_run, (update_run _ _ _ _ Hl).
  do 2 run_update.
  rewrite bind_run, (extendTemplate_run _ _ _ _ t (lookup_insert_eq _ _ _)), insert_insert_eq.
  - reflexivity.
  - by rewrite !assign_view_template.
Qed.

Lemma injectCssTransitionDisabler_throws (h : gmap nat View) (l : nat) (v : View) :
  h !! l = Some v → template v = None →
  injectCssTransitionDisabler l h = (Throw (TemplateMissing l), <[l := half_injected l v]> h).
Proof.
  intros Hl Ht. unfold injectCssTransitionDisabler, View_set, assign.
  rewrite bind_run, (update_run _ _ _ _ Hl).
  do 2 run_update.
  rewrite bind_run, (extendTemplate_missing _ _ _ _ (lookup_insert_eq _ _ _)).
  - reflexivity.
  - by rewrite !assign_view_template.
Qed.

Lemma injected_flag (l : nat) (t : Template) (v : View) :
  own (injected l t v) !! flag_name = Some (mkProperty Observable (VBool false)).
Proof.
  unfold injected; simpl.
  rewrite !own_assign_ne by discriminate.
  simpl. by rewrite lookup_insert_eq.
Qed.

Lemma injected_get_flag (l : nat) (t : Template) (v : View) :
  get (injected l t v) flag_name = VBool false.
Proof. unfold get. by rewrite injected_flag. Qed.

Lemma injected_get_disable (l : nat) (t : Template) (v : View) :
  get (injected l t v) disable_name = VFunction (ArrowDisable l).
Proof.
  change (get (injected l t v) disable_name)
    with (get (half_injected l v) disable_name).
  unfold half_injected.
  rewrite get_assign_ne by discriminate. apply get_assign_eq.
Qed.

Lemma injected_get_enable (l : nat) (t : Template) (v : View) :
  get (injected l t v) enable_name = VFunction (ArrowEnable l).
Proof.
  change (get (injected l t v) enable_name)
    with (get (half_injected l v) enable_name).
  apply get_assign_eq.
Qed.

Lemma injected_class (l : nat) (t : Template) (v : View) :
  attribute_values (injected l t v) "class"
  = default [] (attributes t !! "class") ++ [bound_rule].
Proof. apply attribute_values_extend_class. Qed.

Lemma injected_proto (l : nat) (t : Template) (v : View) :
  proto (injected l t v) = proto v.
Proof. unfold injected; simpl. by rewrite !assign_view_proto. Qed.

Lemma injected_own_other (l : nat) (t : Template) (v : View) (n : string) :
  n ≠ flag_name → n ≠ disable_name → n ≠ enable_name →
  own (injected l t v) !! n = own v !! n.
Proof.
  intros H1 H2 H3. unfold injected; simpl.
  rewrite !own_assign_ne by done. simpl. by rewrite lookup_insert_ne.
Qed.

(** ** The two control methods *)

Section Toggles.

Variable foreign : string → nat → M Value.

Lemma call_run (h : gmap nat View) (l : nat) (v : View) (n : string) (m : Method) :
  h !! l = Some v → get v n = VFunction m →
  call foreign l n h = invoke foreign l m h.
Proof.
  intros Hl Hm. unfold call. by rewrite bind_run, (load_run _ _ _ Hl), Hm.
Qed.

Lemma assign_flag_run (h : gmap nat View) (l : nat) (v : View) (b : bool) :
  h !! l = Some v →
  (assign l flag_name (VBool b);; mret VUndefined) h
  = (Ok VUndefined, <[l := assign_view flag_name (VBool b) v]> h).
Proof.
  intros Hl. unfold assign. by rewrite bind_run, (update_run _ _ _ _ Hl).
Qed.

Lemma toggle_run (h : gmap nat View) (l : nat) (v : View) (t : Toggle) :
  h !! l = Some v → equipped l v →
  toggle foreign l t h
  = (Ok VUndefined, <[l := assign_view flag_name (VBool (toggle_value t)) v]> h).
Proof.
  intros Hl [[Hd He] | [Hd He]]; destruct t; simpl;
    unfold disableCssTransitions, enableCssTransitions;
    first [ rewrite (call_run _ _ _ _ _ Hl Hd) | rewrite (call_run _ _ _ _ _ Hl He) ];
    simpl; by apply assign_flag_run.
Qed.

Lemma equipped_assign_flag (l : nat) (v : View) (x : Value) :
  equipped l v → equipped l (assign_view flag_name x v).
Proof.
  unfold equipped. rewrite !get_assign_ne by discriminate. done.
Qed.

Lemma equipped_after_toggles (l : nat) (ts : list Toggle) (v : View) :
  equipped l v → equipped l (after_toggles ts v).
Proof.
  revert v. induction ts as [|t ts IH]; intros v Hv; [done |].
  simpl. by apply IH, equipped_assign_flag.
Qed.

Lemma toggles_run (ts : list Toggle) (h : gmap nat View) (l : nat) (v : View) :
  h !! l = Some v → equipped l v →
  toggles foreign l ts h = (Ok tt, <[l := after_toggles ts v]> h).
Proof.
  revert h v. induction ts as [|t ts IH]; intros h v Hl Hv; simpl.
  - by rewrite insert_id.
  - rewrite bind_run, (toggle_run _ _ _ _ Hl Hv).
    rewrite (IH _ (assign_view flag_name (VBool (toggle_value t)) v)).
    + by rewrite insert_insert_eq.
    + apply lookup_insert_eq.
    + by apply equipped_assign_flag.
Qed.

End Toggles.

Lemma after_toggles_snoc (ts : list Toggle) (t : Toggle) (v : View) :
  after_toggles (ts ++ [t]) v
  = assign_view flag_name (VBool (toggle_value t)) (after_toggles ts v).
Proof. unfold after_toggles. by rewrite fold_left_app. Qed.

(** After a sequence of calls the flag holds what the last call wrote. *)
Lemma after_toggles_flag (ts : list Toggle) (v : View) :
  get (after_toggles ts v) flag_name
  = match last ts with
    | Some t => VBool (toggle_value t)
    | None => get v flag_name
    end.
Proof.
  destruct ts as [|t ts _] using rev_ind; [done |].
  by rewrite after_toggles_snoc, get_assign_eq, last_snoc.
Qed.

Lemma after_toggles_template (ts : list Toggle) (v : View) :
  template (after_toggles ts v) = template v.
Proof.
  revert v. induction ts as [|t ts IH]; intros v; [done |].
  simpl. by rewrite IH, assign_view_template.
Qed.

Lemma after_toggles_proto (ts : list Toggle) (v : View) :
  proto (after_toggles ts v) = proto v.
Proof.
  revert v. induction ts as [|t ts IH]; intros v; [done |].
  simpl. by rewrite IH, assign_view_proto.
Qed.

Lemma after_toggles_own_ne (ts : list Toggle) (v : View) (n : string) :
  n ≠ flag_name → own (after_toggles ts v) !! n = own v !! n.
Proof.
  intros Hne. revert v. induction ts as [|t ts IH]; intros v; [done |].
  simpl. by rewrite IH, own_assign_ne.
Qed.

Lemma after_toggles_get_ne (ts : list Toggle) (v : View) (n : string) :
  n ≠ flag_name → get (after_toggles ts v) n = get v n.
Proof.
  intros Hne. unfold get.
  by rewrite after_toggles_own_ne, after_toggles_proto.
Qed.

Lemma after_toggles_attribute_values (ts : list Toggle) (v : View) (a : string) :
  attribute_values (after_toggles ts v) a = attribute_values v a.
Proof. unfold attribute_values. by rewrite after_toggles_template. Qed.

(** ** Construction *)

Lemma new_run (C : Class) (args : list Value) (h h' : gmap nat View) :
  ctor C (fresh (dom h)) args (<[fresh (dom h) := mkView ∅ (prototype C) None []]> h)
  = (Ok tt, h') →
  new_ C args h = (Ok (fresh (dom h)), h').
Proof.
  intros Hc. unfold new_. rewrite bind_run. unfold alloc.
  by rewrite bind_run, Hc.
Qed.

Lemma new_throws (C : Class) (args : list Value) (h h' : gmap nat View) (e : Error) :
  ctor C (fresh (dom h)) args (<[fresh (dom h) := mkView ∅ (prototype C) None []]> h)
  = (Throw e, h') →
  new_ C args h = (Throw e, h').
Proof.
  intros Hc. unfold new_. rewrite bind_run. unfold alloc.
  by rewrite bind_run, Hc.
Qed.

Lemma Mixin_ctor_run (base : Class) (l : nat) (args : list Value)
    (h h' : gmap nat View) (v : View) :
  ctor base l args h = (Ok tt, h') → h' !! l = Some v →
  ctor (CssTransitionMixin base) l args h = (Ok tt, <[l := mixed v]> h').
Proof.
  intros Hc Hl. simpl. rewrite bind_run, Hc.
  unfold define_field. by apply update_run.
Qed.

Lemma Mixin_ctor_throws (base : Class) (l : nat) (args : list Value)
    (h h' : gmap nat View) (e : Error) :
  ctor base l args h = (Throw e, h') →
  ctor (CssTransitionMixin base) l args h = (Throw e, h').
Proof. intros Hc. simpl. by rewrite bind_run, Hc. Qed.

Lemma new_Mixin_run (base : Class) (args : list Value) (h h' : gmap nat View) (v : View) :
  builds base (prototype (CssTransitionMixin base)) args h v h' →
  new_ (CssTransitionMixin base) args h
  = (Ok (fresh (dom h)), <[fresh (dom h) := mixed v]> h').
Proof.
  intros [Hc Hl]. apply new_run. by apply Mixin_ctor_run.
Qed.

(** The prototype chain of the mixin class: its three methods, and behind
    them whatever [base] has. *)
Lemma Mixin_methods_lookup (n : string) :
  Mixin_methods !! n =
    if decide (n = disable_name) then Some MixinDisable
    else if decide (n = enable_name) then Some MixinEnable
    else if decide (n = initialize_name) then Some MixinInitialize
    else None.
Proof.
  unfold Mixin_methods.
  repeat case_decide; subst; simplify_map_eq; done.
Qed.

Lemma Mixin_prototype_lookup (base : Class) (n : string) :
  prototype (CssTransitionMixin base) !! n =
    if decide (n = disable_name) then Some MixinDisable
    else if decide (n = enable_name) then Some MixinEnable
    else if decide (n = initialize_name) then Some MixinInitialize
    else prototype base !! n.
Proof.
  simpl. rewrite lookup_union, Mixin_methods_lookup.
  repeat case_decide; try done;
    by destruct (prototype base !! n).
Qed.

Lemma mixed_get_flag (v : View) : get (mixed v) flag_name = VBool false.
Proof. unfold get, mixed; simpl. by rewrite lookup_insert_eq. Qed.

Lemma mixed_flag (v : View) :
  own (mixed v) !! flag_name = Some (mkProperty PlainField (VBool false)).
Proof. unfold mixed; simpl. by rewrite lookup_insert_eq. Qed.

Lemma mixed_get_ne (v : View) (n : string) :
  n ≠ flag_name → get (mixed v) n = get v n.
Proof. intros Hne. unfold get, mixed; simpl. by rewrite lookup_insert_ne. Qed.

Lemma unshadowed_get (base : Class) (v : View) :
  unshadowed base v →
  get v disable_name = VFunction MixinDisable
  ∧ get v enable_name = VFunction MixinEnable
  ∧ get v initialize_name = VFunction MixinInitialize.
Proof.
  intros (Hp & Hd & He & Hi). unfold get.
  rewrite Hd, He, Hi, Hp, !Mixin_prototype_lookup. done.
Qed.

Lemma mixed_equipped (base : Class) (l : nat) (v : View) :
  unshadowed base v → equipped l (mixed v).
Proof.
  intros (Hd & He & _)%unshadowed_get. right.
  by rewrite !mixed_get_ne.
Qed.

Lemma injected_equipped (l : nat) (t : Template) (v : View) :
  equipped l (injected l t v).
Proof. left. by rewrite injected_get_disable, injected_get_enable. Qed.

(** * The claims *)

Lemma read_flag_run (h : gmap nat View) (l : nat) (v : View) :
  h !! l = Some v → read_flag l h = (Ok (get v flag_name), h).
Proof. intros Hl. unfold read_flag. by rewrite bind_run, (load_run _ _ _ Hl). Qed.

Lemma same_state_assign_twice (n : string) (x : Value) (v : View) :
  same_state (assign_view n x v) (assign_view n x (assign_view n x v)).
Proof.
  repeat split.
  - destruct (assign_view_own n x (assign_view n x v)) as [k' Hk'].
    pose proof (assign_view_kind n x (assign_view n x v)) as Hkind.
    rewrite Hk', lookup_insert_eq in Hkind. simpl in Hkind.
    rewrite assign_view_kind in Hkind.
    destruct (assign_view_own n x v) as [k Hk].
    pose proof (assign_view_kind n x v) as Hkind0.
    rewrite Hk, lookup_insert_eq in Hkind0. simpl in Hkind0.
    rewrite Hk', Hk, insert_insert_eq.
    f_equal. f_equal.
    destruct (prop_kind <$> own v !! n) as [[]|]; congruence.
  - by rewrite !assign_view_proto.
  - by rewrite !assign_view_template.
Qed.

(** C3. On a view that carries the capability, whether the decorator or the
    mixin class gave it, and in whatever state the view is:
    [disableCssTransitions()] leaves the flag [true] and
    [enableCssTransitions()] leaves it [false]; the same call made twice in a
    row leaves the flag as one call does, and leaves the view's properties,
    methods and template as one call does. *)
Theorem control_methods_set_flag (foreign : string → nat → M Value)
    (h : gmap nat View) (l : nat) (v : View) :
  h !! l = Some v → equipped l v →
  fst ((disableCssTransitions foreign l;; read_flag l) h) = Ok (VBool true)
  ∧ fst ((enableCssTransitions foreign l;; read_flag l) h) = Ok (VBool false)
  ∧ fst ((disableCssTransitions foreign l;; disableCssTransitions foreign l;;
          read_flag l) h) = Ok (VBool true)
  ∧ fst ((enableCssTransitions foreign l;; enableCssTransitions foreign l;;
          read_flag l) h) = Ok (VBool false)
  ∧ ∀ t, ∃ v1 v2,
      toggle foreign l t h = (Ok VUndefined, <[l := v1]> h)
      ∧ (toggle foreign l t;; toggle foreign l t) h = (Ok VUndefined, <[l := v2]> h)
      ∧ same_state v1 v2.
Proof.
  intros Hl Hv.
  assert (Hone : ∀ t, (toggle foreign l t;; read_flag l) h
                      = (Ok (VBool (toggle_value t)),
                         <[l := assign_view flag_name (VBool (toggle_value t)) v]> h)).
  { intros t. rewrite bind_run, (toggle_run _ _ _ _ _ Hl Hv).
    rewrite (read_flag_run _ _ _ (lookup_insert_eq _ _ _)).
    by rewrite get_assign_eq. }
  assert (Htwo : ∀ t, (toggle foreign l t;; toggle foreign l t) h
                      = (Ok VUndefined,
                         <[l := assign_view flag_name (VBool (toggle_value t))
                                  (assign_view flag_name (VBool (toggle_value t)) v)]> h)).
  { intros t. rewrite bind_run, (toggle_run _ _ _ _ _ Hl Hv).
    rewrite (toggle_run _ _ _ _ _ (lookup_insert_eq _ _ _)
               (equipped_assign_flag _ _ _ Hv)).
    by rewrite insert_insert_eq. }
  assert (Hthree : ∀ t, fst ((toggle foreign l t;; toggle foreign l t;; read_flag l) h)
                        = Ok (VBool (toggle_value t))).
  { intros t. rewrite bind_run, (toggle_run _ _ _ _ _ Hl Hv).
    rewrite bind_run, (toggle_run _ _ _ _ _ (lookup_insert_eq _ _ _)
                         (equipped_assign_flag _ _ _ Hv)).
    rewrite (read_flag_run _ _ _ (lookup_insert_eq _ _ _)).
    by rewrite get_assign_eq. }
  split; [exact (f_equal fst (Hone Disable)) |].
  split; [exact (f_equal fst (Hone Enable)) |].
  split; [exact (Hthree Disable) |].
  split; [exact (Hthree Enable) |].
  intros t. eexists _, _.
  split; [by apply toggle_run |].
  split; [apply Htwo |].
  apply same_state_assign_twice.
Qed.

Lemma control_methods_set_flag_witness :
  Sample.heap1 !! 7 = Some (injected 7 Sample.tpl Sample.view0)
  ∧ equipped 7 (injected 7 Sample.tpl Sample.view0)
  ∧ fst ((disableCssTransitions Sample.foreign 7;; read_flag 7) Sample.heap1)
    = Ok (VBool true)
  ∧ fst ((enableCssTransitions Sample.foreign 7;; read_flag 7) Sample.heap1)
    = Ok (VBool false)
  ∧ fst ((disableCssTransitions Sample.foreign 7;; disableCssTransitions Sample.foreign 7;;
          read_flag 7) Sample.heap1) = Ok (VBool true)
  ∧ fst ((enableCssTransitions Sample.foreign 7;; enableCssTransitions Sample.foreign 7;;
          read_flag 7) Sample.heap1) = Ok (VBool false)
  ∧ ∀ t, ∃ v1 v2,
      toggle Sample.foreign 7 t Sample.heap1 = (Ok VUndefined, <[7 := v1]> Sample.heap1)
      ∧ (toggle Sample.foreign 7 t;; toggle Sample.foreign 7 t) Sample.heap1
        = (Ok VUndefined, <[7 := v2]> Sample.heap1)
      ∧ same_state v1 v2.
Proof.
  assert (H1 : Sample.heap1 !! 7 = Some (injected 7 Sample.tpl Sample.view0))
    by (vm_compute; reflexivity).
  assert (H2 : equipped 7 (injected 7 Sample.tpl Sample.view0))
    by (left; split; vm_compute; reflexivity).
  split; [exact H1 |]. split; [exact H2 |].
  exact (control_methods_set_flag Sample.foreign Sample.heap1 7 _ H1 H2).
Defined.

(** C8. A call to either control method on a view that carries the
    capability writes the flag and nothing else: the call returns normally
    with no value, the template, the methods of the prototype chain and every
    own property other than the flag are as before (the two control methods
    among them), no other object of the store is touched and none is created;
    the only notifications fired are those of the flag's own write. *)
Theorem control_methods_frame (foreign : string → nat → M Value)
    (h : gmap nat View) (l : nat) (v : View) (t : Toggle) :
  h !! l = Some v → equipped l v →
  ∃ v',
    toggle foreign l t h = (Ok VUndefined, <[l := v']> h)
    ∧ get v' flag_name = VBool (toggle_value t)
    ∧ template v' = template v
    ∧ proto v' = proto v
    ∧ (∀ n, n ≠ flag_name → own v' !! n = own v !! n)
    ∧ (∀ n, n ≠ flag_name → get v' n = get v n)
    ∧ (∀ l', l' ≠ l → (<[l := v']> h) !! l' = h !! l')
    ∧ dom (<[l := v']> h) = dom h
    ∧ ∃ evs, fired v' = fired v ++ evs
             ∧ Forall (λ e, e = mkChange flag_name (VBool (toggle_value t))) evs.
Proof.
  intros Hl Hv. exists (assign_view flag_name (VBool (toggle_value t)) v).
  split; [by apply toggle_run |].
  split; [apply get_assign_eq |].
  split; [apply assign_view_template |].
  split; [apply assign_view_proto |].
  split; [intros n Hn; by apply own_assign_ne |].
  split; [intros n Hn; by apply get_assign_ne |].
  split; [intros l' Hl'; by apply lookup_insert_ne |].
  split.
  - apply dom_insert_lookup_L. by exists v.
  - rewrite assign_view_fired. eexists; split; [reflexivity |].
    destruct (prop_kind <$> own v !! flag_name) as [[]|]; repeat constructor.
Qed.

Lemma control_methods_frame_witness :
  ∃ v',
    toggle Sample.foreign 7 Disable Sample.heap1 = (Ok VUndefined, <[7 := v']> Sample.heap1)
    ∧ get v' flag_name = VBool true
    ∧ template v' = template (injected 7 Sample.tpl Sample.view0)
    ∧ proto v' = proto (injected 7 Sample.tpl Sample.view0)
    ∧ (∀ n, n ≠ flag_name → own v' !! n = own (injected 7 Sample.tpl Sample.view0) !! n)
    ∧ (∀ n, n ≠ flag_name → get v' n = get (injected 7 Sample.tpl Sample.view0) n)
    ∧ (∀ l', l' ≠ 7 → (<[7 := v']> Sample.heap1) !! l' = Sample.heap1 !! l')
    ∧ dom (<[7 := v']> Sample.heap1) = dom Sample.heap1
    ∧ ∃ evs, fired v' = fired (injected 7 Sample.tpl Sample.view0) ++ evs
             ∧ Forall (λ e, e = mkChange flag_name (VBool true)) evs.
Proof.
  apply (control_methods_frame Sample.foreign Sample.heap1 7
           (injected 7 Sample.tpl Sample.view0) Disable).
  - vm_compute; reflexivity.
  - left; split; vm_compute; reflexivity.
Defined.

(** ** The two documented subclasses *)

Lemma initializeMixin_run (foreign : string → nat → M Value)
    (h : gmap nat View) (l : nat) (v : View) (t : Template) :
  h !! l = Some v → template v = Some t →
  get v initialize_name = VFunction MixinInitialize →
  initializeMixin foreign l h
  = (Ok VUndefined, <[l := with_template (Some (Template_extend t transition_definition)) v]> h).
Proof.
  intros Hl Ht Hi. unfold initializeMixin.
  rewrite (call_run _ _ _ _ _ _ Hl Hi). simpl.
  by rewrite bind_run, (extendTemplate_run _ _ _ _ _ Hl Ht).
Qed.

Lemma new_MixedView_run (foreign : string → nat → M Value) (base : Class)
    (t : Template) (args : list Value) (h h' : gmap nat View) (v : View) :
  builds base (prototype (CssTransitionMixin base)) args h v h' →
  unshadowed base v →
  new_ (MixedView foreign base t) args h
  = (Ok (fresh (dom h)), <[fresh (dom h) := initialized t v]> h').
Proof.
  intros [Hc Hl] Hu. apply new_run.
  change (ctor (MixedView foreign base t) (fresh (dom h)) args)
    with (ctor (CssTransitionMixin base) (fresh (dom h)) args;;
          setTemplate (fresh (dom h)) t;;
          initializeMixin foreign (fresh (dom h));;
          mret tt).
  rewrite bind_run.
  change (prototype (MixedView foreign base t)) with (prototype (CssTransitionMixin base)).
  rewrite (Mixin_ctor_run _ _ _ _ _ _ Hc Hl).
  unfold setTemplate.
  rewrite bind_run, (update_run _ _ _ _ (lookup_insert_eq _ _ _)), insert_insert_eq.
  rewrite bind_run.
  rewrite (initializeMixin_run _ _ _ _ t (lookup_insert_eq _ _ _)).
  - by rewrite insert_insert_eq.
  - done.
  - destruct (unshadowed_get _ _ Hu) as (_ & _ & Hi).
    change (get (with_template (Some t) (mixed v)) initialize_name)
      with (get (mixed v) initialize_name).
    by rewrite mixed_get_ne.
Qed.

Lemma new_InjectedView_run (base : Class) (t : Template) (args : list Value)
    (h h' : gmap nat View) (v : View) :
  builds base (prototype base) args h v h' →
  new_ (InjectedView base t) args h
  = (Ok (fresh (dom h)),
     <[fresh (dom h) := injected (fresh (dom h)) t (with_template (Some t) v)]> h').
Proof.
  intros [Hc Hl]. apply new_run.
  change (ctor (InjectedView base t) (fresh (dom h)) args)
    with (ctor base (fresh (dom h)) args;;
          setTemplate (fresh (dom h)) t;;
          injectCssTransitionDisabler (fresh (dom h));;
          mret tt).
  change (prototype (InjectedView base t)) with (prototype base).
  rewrite bind_run, Hc. unfold setTemplate.
  rewrite bind_run, (update_run _ _ _ _ Hl).
  rewrite bind_run.
  rewrite (injectCssTransitionDisabler_run _ _ _ t (lookup_insert_eq _ _ _)) by done.
  by rewrite insert_insert_eq.
Qed.

Lemma initialized_get_flag (t : Template) (v : View) :
  get (initialized t v) flag_name = VBool false.
Proof. apply mixed_get_flag. Qed.

Lemma initialized_class (t : Template) (v : View) :
  attribute_values (initialized t v) "class"
  = default [] (attributes t !! "class") ++ [bound_rule].
Proof. apply attribute_values_extend_class. Qed.

Lemma initialized_equipped (base : Class) (l : nat) (t : Template) (v : View) :
  unshadowed base v → equipped l (initialized t v).
Proof. intros Hu. exact (mixed_equipped base l v Hu). Qed.

(** Rendering looks at the template and at property reads only. *)
Lemma render_attribute_class (v : View) (l : list AttributeValue) :
  attribute_values v "class" = l →
  render_attribute v "class" = flat_map (render_value v) l.
Proof. intros <-. reflexivity. Qed.

Lemma token_shown_iff (w : View) (old : list AttributeValue) :
  attribute_values w "class" = old ++ [bound_rule] →
  token_free old = true →
  class_token ∈ render_attribute w "class" ↔ truthy (get w flag_name) = true.
Proof.
  intros Hc Hfree. rewrite (render_attribute_class _ _ Hc).
  by apply render_bound_rule.
Qed.

Lemma token_never_shown (w : View) :
  token_free (attribute_values w "class") = true →
  class_token ∉ render_attribute w "class".
Proof. intros Hfree. by apply render_entries_free. Qed.

Lemma attribute_values_Some (v : View) (t : Template) (a : string) :
  template v = Some t → attribute_values v a = default [] (attributes t !! a).
Proof. intros Ht. unfold attribute_values. by rewrite Ht. Qed.

Lemma render_with_rule (w : View) (old : list AttributeValue) :
  attribute_values w "class" = old ++ [bound_rule] →
  get w flag_name = VBool false →
  render_value w bound_rule = []
  ∧ render_attribute w "class" = flat_map (render_value w) old.
Proof.
  intros Hc Hf. rewrite (render_attribute_class _ _ Hc), flat_map_app.
  simpl. rewrite Hf. simpl. by rewrite app_nil_r.
Qed.

(** C2. Right after [injectCssTransitionDisabler] has returned, right after
    an instance of a mixin-composed class has been constructed, and right
    after such an instance has set its template and called
    [initializeMixin], the flag reads [false]; the bound rule, where it has
    been merged in, outputs nothing, so that a render pass outputs what the
    view's own class entries output; and the class token
    [ck-transitions-disabled] is not output when these entries are other
    tokens. *)
Theorem default_state (foreign : string → nat → M Value)
    (h : gmap nat View) (l : nat) (v : View) (t : Template)
    (base : Class) (args : list Value) (hB hB' : gmap nat View) (vB : View)
    (tB : Template) :
  h !! l = Some v → template v = Some t →
  builds base (prototype (CssTransitionMixin base)) args hB vB hB' →
  unshadowed base vB →
  (∃ v', injectCssTransitionDisabler l h = (Ok VUndefined, <[l := v']> h)
         ∧ own v' !! flag_name = Some (mkProperty Observable (VBool false))
         ∧ get v' flag_name = VBool false
         ∧ render_value v' bound_rule = []
         ∧ render_attribute v' "class"
           = flat_map (render_value v') (attribute_values v "class")
         ∧ (token_free (attribute_values v "class") = true →
            class_token ∉ render_attribute v' "class"))
  ∧ (∃ w, new_ (CssTransitionMixin base) args hB
          = (Ok (fresh (dom hB)), <[fresh (dom hB) := w]> hB')
          ∧ own w !! flag_name = Some (mkProperty PlainField (VBool false))
          ∧ get w flag_name = VBool false
          ∧ attribute_values w "class" = attribute_values vB "class"
          ∧ (token_free (attribute_values vB "class") = true →
             class_token ∉ render_attribute w "class"))
  ∧ (∃ w, new_ (MixedView foreign base tB) args hB
          = (Ok (fresh (dom hB)), <[fresh (dom hB) := w]> hB')
          ∧ get w flag_name = VBool false
          ∧ render_value w bound_rule = []
          ∧ render_attribute w "class"
            = flat_map (render_value w) (default [] (attributes tB !! "class"))
          ∧ (token_free (default [] (attributes tB !! "class")) = true →
             class_token ∉ render_attribute w "class")).
Proof.
  intros Hl Ht Hb Hu.
  split; [| split].
  - exists (injected l t v).
    assert (Hc : attribute_values (injected l t v) "class"
                 = attribute_values v "class" ++ [bound_rule]).
    { by rewrite injected_class, (attribute_values_Some v t "class"). }
    destruct (render_with_rule _ _ Hc (injected_get_flag l t v)) as [Hr Ha].
    split; [by apply injectCssTransitionDisabler_run |].
    split; [apply injected_flag |].
    split; [apply injected_get_flag |].
    split; [exact Hr |].
    split; [exact Ha |].
    intros Hfree. rewrite (token_shown_iff _ _ Hc Hfree).
    by rewrite injected_get_flag.
  - exists (mixed vB).
    split; [by apply new_Mixin_run |].
    split; [apply mixed_flag |].
    split; [apply mixed_get_flag |].
    split; [reflexivity |].
    intros Hfree. by apply token_never_shown.
  - exists (initialized tB vB).
    destruct (render_with_rule _ _ (initialized_class tB vB)
                (initialized_get_flag tB vB)) as [Hr Ha].
    split; [by apply new_MixedView_run |].
    split; [apply initialized_get_flag |].
    split; [exact Hr |].
    split; [exact Ha |].
    intros Hfree. rewrite (token_shown_iff _ _ (initialized_class tB vB) Hfree).
    by rewrite initialized_get_flag.
Qed.

Lemma Sample_builds_B :
  builds Sample.Base (prototype (CssTransitionMixin Sample.Base)) Sample.args0
    Sample.heap0 Sample.viewB Sample.heapB.
Proof. split; vm_compute; reflexivity. Defined.

Lemma Sample_builds_A :
  builds Sample.Base (prototype Sample.Base) Sample.args0
    Sample.heap0 Sample.viewA Sample.heapA.
Proof. split; vm_compute; reflexivity. Defined.

Lemma Sample_unshadowed : unshadowed Sample.Base Sample.viewB.
Proof. repeat split; vm_compute; reflexivity. Defined.

Lemma default_state_witness :
  (∃ v', injectCssTransitionDisabler 7 Sample.heap0
         = (Ok VUndefined, <[7 := v']> Sample.heap0)
         ∧ own v' !! flag_name = Some (mkProperty Observable (VBool false))
         ∧ get v' flag_name = VBool false
         ∧ render_value v' bound_rule = []
         ∧ render_attribute v' "class"
           = flat_map (render_value v') (attribute_values Sample.view0 "class")
         ∧ (token_free (attribute_values Sample.view0 "class") = true →
            class_token ∉ render_attribute v' "class"))
  ∧ (∃ w, new_ (CssTransitionMixin Sample.Base) Sample.args0 Sample.heap0
          = (Ok (fresh (dom Sample.heap0)),
             <[fresh (dom Sample.heap0) := w]> Sample.heapB)
          ∧ own w !! flag_name = Some (mkProperty PlainField (VBool false))
          ∧ get w flag_name = VBool false
          ∧ attribute_values w "class" = attribute_values Sample.viewB "class"
          ∧ (token_free (attribute_values Sample.viewB "class") = true →
             class_token ∉ render_attribute w "class"))
  ∧ (∃ w, new_ (MixedView Sample.foreign Sample.Base Sample.tpl) Sample.args0 Sample.heap0
          = (Ok (fresh (dom Sample.heap0)),
             <[fresh (dom Sample.heap0) := w]> Sample.heapB)
          ∧ get w flag_name = VBool false
          ∧ render_value w bound_rule = []
          ∧ render_attribute w "class"
            = flat_map (render_value w) (default [] (attributes Sample.tpl !! "class"))
          ∧ (token_free (default [] (attributes Sample.tpl !! "class")) = true →
             class_token ∉ render_attribute w "class")).
Proof.
  apply (default_state Sample.foreign Sample.heap0 7 Sample.view0 Sample.tpl
           Sample.Base Sample.args0 Sample.heap0 Sample.heapB Sample.viewB Sample.tpl).
  - vm_compute; reflexivity.
  - reflexivity.
  - exact Sample_builds_B.
  - exact Sample_unshadowed.
Defined.

(** On the sample view the own class entries are [a] and [b]: after the
    decorator has run, a render pass outputs these two tokens and no other. *)
Example sample_render_after_injection :
  (λ w, render_attribute w "class") <$> snd (injectCssTransitionDisabler 7 Sample.heap0) !! 7
  = Some ["a"; "b"].
Proof. vm_compute; reflexivity. Qed.

Lemma attribute_at_insert (h : gmap nat View) (l : nat) (v : View) (a : string) :
  attribute_at (<[l := v]> h) l a = attribute_values v a.
Proof. unfold attribute_at. by rewrite lookup_insert_eq. Qed.

Lemma attribute_at_lookup (h : gmap nat View) (l : nat) (v : View) (a : string) :
  h !! l = Some v → attribute_at h l a = attribute_values v a.
Proof. intros Hl. unfold attribute_at. by rewrite Hl. Qed.

(** C4. On a view that has a template, the merge done by
    [injectCssTransitionDisabler], and the one done by [initializeMixin] on
    an instance of a mixin-composed class, puts exactly one entry, the bound
    rule, after the entries the [class] attribute already holds; these stay
    as they are and in their order, and every other attribute of the template
    and its tag are unchanged. *)
Theorem template_merge_appends (foreign : string → nat → M Value)
    (h : gmap nat View) (l : nat) (v : View) (t : Template)
    (hM : gmap nat View) (lM : nat) (vM : View) (tM : Template) :
  h !! l = Some v → template v = Some t →
  hM !! lM = Some vM → template vM = Some tM →
  get vM initialize_name = VFunction MixinInitialize →
  (fst (injectCssTransitionDisabler l h) = Ok VUndefined
   ∧ attribute_at (snd (injectCssTransitionDisabler l h)) l "class"
     = attribute_at h l "class" ++ [bound_rule]
   ∧ (∀ a, a ≠ "class" →
        attribute_at (snd (injectCssTransitionDisabler l h)) l a = attribute_at h l a)
   ∧ tag <$> (snd (injectCssTransitionDisabler l h) !! l ≫= template) = Some (tag t))
  ∧ (fst (initializeMixin foreign lM hM) = Ok VUndefined
     ∧ attribute_at (snd (initializeMixin foreign lM hM)) lM "class"
       = attribute_at hM lM "class" ++ [bound_rule]
     ∧ (∀ a, a ≠ "class" →
          attribute_at (snd (initializeMixin foreign lM hM)) lM a = attribute_at hM lM a)
     ∧ tag <$> (snd (initializeMixin foreign lM hM) !! lM ≫= template) = Some (tag tM)).
Proof.
  intros Hl Ht HlM HtM Hi. split.
  - rewrite (injectCssTransitionDisabler_run _ _ _ _ Hl Ht). simpl.
    rewrite (attribute_at_lookup _ _ _ _ Hl), (attribute_values_Some _ _ _ Ht).
    split; [done |].
    split; [by rewrite attribute_at_insert, injected_class |].
    split.
    + intros a Ha.
      rewrite attribute_at_insert, (attribute_at_lookup _ _ _ _ Hl).
      rewrite (attribute_values_Some _ _ _ Ht).
      by apply attribute_values_extend_other.
    + by rewrite lookup_insert_eq.
  - rewrite (initializeMixin_run _ _ _ _ _ HlM HtM Hi). simpl.
    rewrite (attribute_at_lookup _ _ _ _ HlM), (attribute_values_Some _ _ _ HtM).
    split; [done |].
    split; [by rewrite attribute_at_insert, attribute_values_extend_class |].
    split.
    + intros a Ha.
      rewrite attribute_at_insert, (attribute_at_lookup _ _ _ _ HlM).
      rewrite (attribute_values_Some _ _ _ HtM).
      by apply attribute_values_extend_other.
    + by rewrite lookup_insert_eq.
Qed.

Lemma template_merge_appends_witness :
  (fst (injectCssTransitionDisabler 7 Sample.heap0) = Ok VUndefined
   ∧ attribute_at (snd (injectCssTransitionDisabler 7 Sample.heap0)) 7 "class"
     = [Literal "a"; Literal "b"] ++ [bound_rule]
   ∧ (∀ a, a ≠ "class" →
        attribute_at (snd (injectCssTransitionDisabler 7 Sample.heap0)) 7 a
        = attribute_at Sample.heap0 7 a)
   ∧ tag <$> (snd (injectCssTransitionDisabler 7 Sample.heap0) !! 7 ≫= template)
     = Some "div")
  ∧ (fst (initializeMixin Sample.foreign (fresh (dom Sample.heap0)) Sample.heapM)
     = Ok VUndefined
     ∧ attribute_at (snd (initializeMixin Sample.foreign (fresh (dom Sample.heap0))
                            Sample.heapM)) (fresh (dom Sample.heap0)) "class"
       = [Literal "a"; Literal "b"] ++ [bound_rule]
     ∧ (∀ a, a ≠ "class" →
          attribute_at (snd (initializeMixin Sample.foreign (fresh (dom Sample.heap0))
                               Sample.heapM)) (fresh (dom Sample.heap0)) a
          = attribute_at Sample.heapM (fresh (dom Sample.heap0)) a)
     ∧ tag <$> (snd (initializeMixin Sample.foreign (fresh (dom Sample.heap0))
                       Sample.heapM) !! fresh (dom Sample.heap0) ≫= template)
       = Some "div").
Proof.
  assert (E : attribute_at Sample.heap0 7 "class" = [Literal "a"; Literal "b"]).
  { vm_compute; reflexivity. }
  assert (EM : attribute_at Sample.heapM (fresh (dom Sample.heap0)) "class"
               = [Literal "a"; Literal "b"]).
  { vm_compute; reflexivity. }
  rewrite <- E at 1. rewrite <- EM.
  apply (template_merge_appends Sample.foreign Sample.heap0 7 Sample.view0 Sample.tpl
           Sample.heapM (fresh (dom Sample.heap0)) Sample.viewM Sample.tpl).
  - vm_compute; reflexivity.
  - reflexivity.
  - vm_compute; reflexivity.
  - reflexivity.
  - vm_compute; reflexivity.
Defined.

(** C7. [injectCssTransitionDisabler] is not idempotent, and a repeated call
    is neither detected nor rejected.  Called a second time on the same view,
    whatever calls to the control methods came in between, it returns
    normally; the flag is declared again, observable and [false]; the two
    control methods are assigned again; and the [class] attribute receives a
    second copy of the bound rule, so that it differs from what one call
    leaves. *)
Theorem injection_not_idempotent (foreign : string → nat → M Value)
    (h : gmap nat View) (l : nat) (v : View) (t : Template) (ts : list Toggle) :
  h !! l = Some v → template v = Some t →
  ∃ v2,
    (injectCssTransitionDisabler l;; toggles foreign l ts;;
     injectCssTransitionDisabler l) h = (Ok VUndefined, <[l := v2]> h)
    ∧ own v2 !! flag_name = Some (mkProperty Observable (VBool false))
    ∧ get v2 disable_name = VFunction (ArrowDisable l)
    ∧ get v2 enable_name = VFunction (ArrowEnable l)
    ∧ attribute_values v2 "class"
      = attribute_at h l "class" ++ [bound_rule; bound_rule]
    ∧ attribute_at (snd (injectCssTransitionDisabler l h)) l "class"
      = attribute_at h l "class" ++ [bound_rule]
    ∧ attribute_values v2 "class"
      ≠ attribute_at (snd (injectCssTransitionDisabler l h)) l "class".
Proof.
  intros Hl Ht.
  set (t1 := Template_extend t transition_definition).
  set (v1 := after_toggles ts (injected l t v)).
  assert (Ht1 : template v1 = Some t1) by (unfold v1; by rewrite after_toggles_template).
  exists (injected l t1 v1).
  assert (Hc2 : attribute_values (injected l t1 v1) "class"
                = attribute_at h l "class" ++ [bound_rule; bound_rule]).
  { rewrite injected_class. unfold t1; simpl. rewrite extend_attributes_class. simpl.
    rewrite (attribute_at_lookup _ _ _ _ Hl), (attribute_values_Some _ _ _ Ht).
    by rewrite <- app_assoc. }
  assert (Hc1 : attribute_at (snd (injectCssTransitionDisabler l h)) l "class"
                = attribute_at h l "class" ++ [bound_rule]).
  { rewrite (injectCssTransitionDisabler_run _ _ _ _ Hl Ht). simpl.
    rewrite attribute_at_insert, injected_class.
    by rewrite (attribute_at_lookup _ _ _ _ Hl), (attribute_values_Some _ _ _ Ht). }
  split.
  { rewrite bind_run, (injectCssTransitionDisabler_run _ _ _ _ Hl Ht).
    rewrite bind_run.
    rewrite (toggles_run foreign ts _ _ _ (lookup_insert_eq _ _ _)
               (injected_equipped l t v)).
    rewrite insert_insert_eq.
    rewrite (injectCssTransitionDisabler_run _ _ _ t1 (lookup_insert_eq _ _ _) Ht1).
    by rewrite insert_insert_eq. }
  split; [apply injected_flag |].
  split; [apply injected_get_disable |].
  split; [apply injected_get_enable |].
  split; [exact Hc2 |].
  split; [exact Hc1 |].
  rewrite Hc2, Hc1. intros Heq%(f_equal length).
  rewrite !length_app in Heq. simpl in Heq. lia.
Qed.

Lemma injection_not_idempotent_witness :
  ∃ v2,
    (injectCssTransitionDisabler 7;; toggles Sample.foreign 7 [Disable];;
     injectCssTransitionDisabler 7) Sample.heap0 = (Ok VUndefined, <[7 := v2]> Sample.heap0)
    ∧ own v2 !! flag_name = Some (mkProperty Observable (VBool false))
    ∧ get v2 disable_name = VFunction (ArrowDisable 7)
    ∧ get v2 enable_name = VFunction (ArrowEnable 7)
    ∧ attribute_values v2 "class"
      = [Literal "a"; Literal "b"] ++ [bound_rule; bound_rule]
    ∧ attribute_at (snd (injectCssTransitionDisabler 7 Sample.heap0)) 7 "class"
      = [Literal "a"; Literal "b"] ++ [bound_rule]
    ∧ attribute_values v2 "class"
      ≠ attribute_at (snd (injectCssTransitionDisabler 7 Sample.heap0)) 7 "class".
Proof.
  assert (E : attribute_at Sample.heap0 7 "class" = [Literal "a"; Literal "b"]).
  { vm_compute; reflexivity. }
  rewrite <- E.
  apply (injection_not_idempotent Sample.foreign Sample.heap0 7 Sample.view0 Sample.tpl
           [Disable]).
  - vm_compute; reflexivity.
  - reflexivity.
Defined.

(** C6, as stated, fails: the function has no [return], so the call on a view
    with a template evaluates to [undefined], not to the view. *)
Lemma inject_returns_undefined :
  fst (injectCssTransitionDisabler 7 Sample.heap0) = Ok VUndefined
  ∧ bool_decide (returns_its_view 7 Sample.heap0) = false.
Proof. split; vm_compute; reflexivity. Qed.

(** C6, amended. [injectCssTransitionDisabler] returns no value.  It adds the
    capability in place to the very view it was given: after the call the
    same reference holds the flag, observable and [false], and the two
    control methods; the other own properties and the prototype chain of the
    view are as before; no object is created and no other object of the store
    is touched. *)
Theorem inject_mutates_in_place (h : gmap nat View) (l : nat) (v : View) (t : Template) :
  h !! l = Some v → template v = Some t →
  ∃ v',
    injectCssTransitionDisabler l h = (Ok VUndefined, <[l := v']> h)
    ∧ dom (<[l := v']> h) = dom h
    ∧ (∀ l', l' ≠ l → (<[l := v']> h) !! l' = h !! l')
    ∧ own v' !! flag_name = Some (mkProperty Observable (VBool false))
    ∧ get v' disable_name = VFunction (ArrowDisable l)
    ∧ get v' enable_name = VFunction (ArrowEnable l)
    ∧ (∀ n, n ≠ flag_name → n ≠ disable_name → n ≠ enable_name →
         own v' !! n = own v !! n)
    ∧ proto v' = proto v.
Proof.
  intros Hl Ht. exists (injected l t v).
  split; [by apply injectCssTransitionDisabler_run |].
  split; [apply dom_insert_lookup_L; by exists v |].
  split; [intros l' Hl'; by apply lookup_insert_ne |].
  split; [apply injected_flag |].
  split; [apply injected_get_disable |].
  split; [apply injected_get_enable |].
  split; [intros n; apply injected_own_other |].
  apply injected_proto.
Qed.

Lemma inject_mutates_in_place_witness :
  ∃ v',
    injectCssTransitionDisabler 7 Sample.heap0 = (Ok VUndefined, <[7 := v']> Sample.heap0)
    ∧ dom (<[7 := v']> Sample.heap0) = dom Sample.heap0
    ∧ (∀ l', l' ≠ 7 → (<[7 := v']> Sample.heap0) !! l' = Sample.heap0 !! l')
    ∧ own v' !! flag_name = Some (mkProperty Observable (VBool false))
    ∧ get v' disable_name = VFunction (ArrowDisable 7)
    ∧ get v' enable_name = VFunction (ArrowEnable 7)
    ∧ (∀ n, n ≠ flag_name → n ≠ disable_name → n ≠ enable_name →
         own v' !! n = own Sample.view0 !! n)
    ∧ proto v' = proto Sample.view0.
Proof.
  apply (inject_mutates_in_place Sample.heap0 7 Sample.view0 Sample.tpl).
  - vm_compute; reflexivity.
  - reflexivity.
Defined.

(** A plain field is written silently. *)
Lemma after_toggles_plain (ts : list Toggle) (v : View) (x : Value) :
  own v !! flag_name = Some (mkProperty PlainField x) →
  fired (after_toggles ts v) = fired v
  ∧ prop_kind <$> own (after_toggles ts v) !! flag_name = Some PlainField.
Proof.
  revert v x. induction ts as [|t ts IH]; intros v x Hx; simpl.
  - by rewrite Hx.
  - assert (Hstep : assign_view flag_name (VBool (toggle_value t)) v
                    = with_own (insert flag_name
                                  (mkProperty PlainField (VBool (toggle_value t)))) v).
    { unfold assign_view. by rewrite Hx. }
    rewrite Hstep.
    destruct (IH (with_own (insert flag_name
                              (mkProperty PlainField (VBool (toggle_value t)))) v)
                (VBool (toggle_value t))) as [Hf Hk].
    { simpl. by rewrite lookup_insert_eq. }
    by rewrite Hf, Hk.
Qed.

Lemma after_toggles_last_written (ts : list Toggle) (v : View) :
  get v flag_name = VBool false →
  get (after_toggles ts v) flag_name = VBool (last_written ts).
Proof.
  intros Hv. rewrite after_toggles_flag. unfold last_written.
  by destruct (last ts).
Qed.

Lemma session_run (foreign : string → nat → M Value) (C : Class)
    (args : list Value) (ts : list Toggle) (h h' : gmap nat View) (w : View) :
  new_ C args h = (Ok (fresh (dom h)), <[fresh (dom h) := w]> h') →
  equipped (fresh (dom h)) w →
  session foreign C args ts h
  = (Ok (fresh (dom h)), <[fresh (dom h) := after_toggles ts w]> h').
Proof.
  intros Hnew Hw. unfold session.
  rewrite bind_run, Hnew, bind_run.
  rewrite (toggles_run foreign ts _ _ _ (lookup_insert_eq _ _ _) Hw).
  by rewrite insert_insert_eq.
Qed.

Lemma token_free_no_rule (l : list AttributeValue) :
  token_free l = true → bound_rule ∉ l.
Proof.
  intros Hfree Hin%list_elem_of_In.
  unfold token_free in Hfree. rewrite forallb_forall in Hfree.
  by specialize (Hfree _ Hin).
Qed.

(** C5. Constructing an instance of a mixin-composed class does not extend
    the template.  When [initializeMixin] is never called, the flag and the
    two control methods are there and any sequence of calls to them returns
    normally and leaves the flag at what the last call wrote; no notification
    is fired; the template stays what the base constructor made it, whatever
    the flag holds, so that the [class] attribute has the entries the base
    gave it and no other; in particular it does not hold the bound rule, and
    a render pass never outputs the class token, when these entries are other
    tokens. *)
Theorem missed_initialization (foreign : string → nat → M Value) (base : Class)
    (args : list Value) (h h' : gmap nat View) (v : View) (ts : list Toggle) :
  builds base (prototype (CssTransitionMixin base)) args h v h' →
  unshadowed base v →
  ∃ w,
    session foreign (CssTransitionMixin base) args ts h
    = (Ok (fresh (dom h)), <[fresh (dom h) := w]> h')
    ∧ get w flag_name = VBool (last_written ts)
    ∧ get w disable_name = VFunction MixinDisable
    ∧ get w enable_name = VFunction MixinEnable
    ∧ template w = template v
    ∧ attribute_values w "class" = attribute_values v "class"
    ∧ fired w = fired v
    ∧ (token_free (attribute_values v "class") = true →
       (bound_rule ∉ attribute_values w "class")
       ∧ (class_token ∉ render_attribute w "class")).
Proof.
  intros Hb Hu.
  destruct (unshadowed_get _ _ Hu) as (Hd & He & _).
  exists (after_toggles ts (mixed v)).
  assert (Hsame : attribute_values (after_toggles ts (mixed v)) "class"
                  = attribute_values v "class")
    by (by rewrite after_toggles_attribute_values).
  split.
  { apply session_run; [by apply new_Mixin_run | by apply (mixed_equipped base)]. }
  split; [apply after_toggles_last_written, mixed_get_flag |].
  split; [by rewrite after_toggles_get_ne, mixed_get_ne |].
  split; [by rewrite after_toggles_get_ne, mixed_get_ne |].
  split; [by rewrite after_toggles_template |].
  split; [exact Hsame |].
  split; [by destruct (after_toggles_plain ts (mixed v) _ (mixed_flag v)) |].
  intros Hfree. split.
  - rewrite Hsame. by apply token_free_no_rule.
  - apply token_never_shown. by rewrite Hsame.
Qed.

Lemma missed_initialization_witness :
  ∃ w,
    session Sample.foreign (CssTransitionMixin Sample.Base) Sample.args0
      [Disable; Enable; Disable] Sample.heap0
    = (Ok (fresh (dom Sample.heap0)), <[fresh (dom Sample.heap0) := w]> Sample.heapB)
    ∧ get w flag_name = VBool (last_written [Disable; Enable; Disable])
    ∧ get w disable_name = VFunction MixinDisable
    ∧ get w enable_name = VFunction MixinEnable
    ∧ template w = template Sample.viewB
    ∧ attribute_values w "class" = attribute_values Sample.viewB "class"
    ∧ fired w = fired Sample.viewB
    ∧ (token_free (attribute_values Sample.viewB "class") = true →
       (bound_rule ∉ attribute_values w "class")
       ∧ (class_token ∉ render_attribute w "class")).
Proof.
  apply (missed_initialization Sample.foreign Sample.Base Sample.args0
           Sample.heap0 Sample.heapB Sample.viewB [Disable; Enable; Disable]).
  - exact Sample_builds_B.
  - exact Sample_unshadowed.
Defined.

(** C10. [new ( CssTransitionMixin( base ) )( ...args )] runs the constructor
    of [base] on the new object with the very arguments it was given; if that
    constructor throws, the exception is passed on and nothing is added.
    Otherwise the instance is what [base] built, plus one own property: the
    flag, a plain data property holding [false]; template, notifications,
    prototype chain and every other object are as [base] left them.  The
    prototype chain of the class is that of [base] with the three methods
    [disableCssTransitions], [enableCssTransitions] and [initializeMixin] in
    front.  The flag is not declared through [set], whereas after
    [injectCssTransitionDisabler] it is an observable property. *)
Theorem mixin_construction (base : Class) (args : list Value)
    (h h' : gmap nat View) (v : View) :
  builds base (prototype (CssTransitionMixin base)) args h v h' →
  (∃ w,
     new_ (CssTransitionMixin base) args h
     = (Ok (fresh (dom h)), <[fresh (dom h) := w]> h')
     ∧ own w = <[flag_name := mkProperty PlainField (VBool false)]> (own v)
     ∧ proto w = proto v
     ∧ template w = template v
     ∧ fired w = fired v
     ∧ (∀ l', l' ≠ fresh (dom h) → (<[fresh (dom h) := w]> h') !! l' = h' !! l')
     ∧ prop_kind <$> own w !! flag_name = Some PlainField)
  ∧ (∀ n, prototype (CssTransitionMixin base) !! n =
          if decide (n = disable_name) then Some MixinDisable
          else if decide (n = enable_name) then Some MixinEnable
          else if decide (n = initialize_name) then Some MixinInitialize
          else prototype base !! n)
  ∧ (∀ this args' hE hE' e,
       ctor base this args' hE = (Throw e, hE') →
       ctor (CssTransitionMixin base) this args' hE = (Throw e, hE'))
  ∧ (∀ hI lI vI tI,
       hI !! lI = Some vI → template vI = Some tI →
       ∃ vI', snd (injectCssTransitionDisabler lI hI) !! lI = Some vI'
              ∧ prop_kind <$> own vI' !! flag_name = Some Observable).
Proof.
  intros Hb. split; [| split; [| split]].
  - exists (mixed v).
    split; [by apply new_Mixin_run |].
    split; [reflexivity |].
    split; [reflexivity |].
    split; [reflexivity |].
    split; [reflexivity |].
    split; [intros l' Hl'; by apply lookup_insert_ne |].
    by rewrite mixed_flag.
  - apply Mixin_prototype_lookup.
  - intros this args' hE hE' e. apply Mixin_ctor_throws.
  - intros hI lI vI tI Hl Ht. exists (injected lI tI vI).
    rewrite (injectCssTransitionDisabler_run _ _ _ _ Hl Ht). cbn [snd].
    split; [apply lookup_insert_eq |].
    by rewrite injected_flag.
Qed.

Lemma mixin_construction_witness :
  (∃ w,
     new_ (CssTransitionMixin Sample.Base) Sample.args0 Sample.heap0
     = (Ok (fresh (dom Sample.heap0)), <[fresh (dom Sample.heap0) := w]> Sample.heapB)
     ∧ own w = <[flag_name := mkProperty PlainField (VBool false)]> (own Sample.viewB)
     ∧ proto w = proto Sample.viewB
     ∧ template w = template Sample.viewB
     ∧ fired w = fired Sample.viewB
     ∧ (∀ l', l' ≠ fresh (dom Sample.heap0) →
          (<[fresh (dom Sample.heap0) := w]> Sample.heapB) !! l' = Sample.heapB !! l')
     ∧ prop_kind <$> own w !! flag_name = Some PlainField)
  ∧ (∀ n, prototype (CssTransitionMixin Sample.Base) !! n =
          if decide (n = disable_name) then Some MixinDisable
          else if decide (n = enable_name) then Some MixinEnable
          else if decide (n = initialize_name) then Some MixinInitialize
          else prototype Sample.Base !! n)
  ∧ (∀ this args' hE hE' e,
       ctor Sample.Base this args' hE = (Throw e, hE') →
       ctor (CssTransitionMixin Sample.Base) this args' hE = (Throw e, hE'))
  ∧ (∀ hI lI vI tI,
       hI !! lI = Some vI → template vI = Some tI →
       ∃ vI', snd (injectCssTransitionDisabler lI hI) !! lI = Some vI'
              ∧ prop_kind <$> own vI' !! flag_name = Some Observable).
Proof.
  apply (mixin_construction Sample.Base Sample.args0 Sample.heap0 Sample.heapB
           Sample.viewB).
  exact Sample_builds_B.
Defined.

(** An assignment keeps the kind of the property it writes. *)
Lemma assign_view_keeps_kind (n : string) (x y : Value) (k : PropKind) (v : View) :
  own v !! n = Some (mkProperty k y) →
  own (assign_view n x v) !! n = Some (mkProperty k x).
Proof.
  intros Hn. unfold assign_view. rewrite Hn.
  destruct k; simpl; by rewrite lookup_insert_eq.
Qed.

Lemma after_toggles_keeps_kind (ts : list Toggle) (k : PropKind) (v : View) :
  own v !! flag_name = Some (mkProperty k (VBool false)) →
  own (after_toggles ts v) !! flag_name
  = Some (mkProperty k (VBool (last_written ts))).
Proof.
  intros Hv. induction ts as [|t ts IH] using rev_ind; [done |].
  rewrite after_toggles_snoc. unfold last_written. rewrite last_snoc. simpl.
  by apply (assign_view_keeps_kind _ _ _ _ _ IH).
Qed.

(** C1. The two strategies are not equivalent on the code.  Take a base
    class and a template; build one view with the subclass that sets the
    template and decorates itself with [injectCssTransitionDisabler], and one
    with the subclass of [CssTransitionMixin( base )] that sets the template
    and calls [initializeMixin], from the same arguments, and make the same
    calls to the control methods on both.  Both views end with the same
    entries of the [class] attribute, the bound rule on the flag last.  But
    on the decorated view the flag is the observable property that [set]
    declared, and on the view of the mixin-composed class it is the plain
    data property of the class field, holding the same value: the rule of the
    mixin's view is bound to a property that is not observable. *)
Theorem mixin_flag_not_observable (foreign : string → nat → M Value) (base : Class)
    (t : Template) (args : list Value) (h hA hB : gmap nat View) (vA vB : View)
    (ts : list Toggle) :
  builds base (prototype base) args h vA hA →
  builds base (prototype (CssTransitionMixin base)) args h vB hB →
  unshadowed base vB →
  ∃ wA wB,
    session foreign (InjectedView base t) args ts h
    = (Ok (fresh (dom h)), <[fresh (dom h) := wA]> hA)
    ∧ session foreign (MixedView foreign base t) args ts h
      = (Ok (fresh (dom h)), <[fresh (dom h) := wB]> hB)
    ∧ attribute_values wA "class"
      = default [] (attributes t !! "class") ++ [bound_rule]
    ∧ attribute_values wB "class"
      = default [] (attributes t !! "class") ++ [bound_rule]
    ∧ own wA !! flag_name = Some (mkProperty Observable (VBool (last_written ts)))
    ∧ own wB !! flag_name = Some (mkProperty PlainField (VBool (last_written ts))).
Proof.
  intros HbA HbB Hu.
  set (l := fresh (dom h)).
  set (iA := injected l t (with_template (Some t) vA)).
  set (iB := initialized t vB).
  exists (after_toggles ts iA), (after_toggles ts iB).
  split.
  { apply session_run; [by apply new_InjectedView_run | apply injected_equipped]. }
  split.
  { apply session_run; [by apply new_MixedView_run | by apply (initialized_equipped base)]. }
  split; [rewrite after_toggles_attribute_values; apply injected_class |].
  split; [rewrite after_toggles_attribute_values; apply initialized_class |].
  split.
  - apply after_toggles_keeps_kind. unfold iA. apply injected_flag.
  - apply after_toggles_keeps_kind. unfold iB, initialized; simpl.
    by rewrite lookup_insert_eq.
Qed.

Lemma mixin_flag_not_observable_witness :
  ∃ wA wB,
    session Sample.foreign (InjectedView Sample.Base Sample.tpl) Sample.args0
      [Disable] Sample.heap0
    = (Ok (fresh (dom Sample.heap0)), <[fresh (dom Sample.heap0) := wA]> Sample.heapA)
    ∧ session Sample.foreign (MixedView Sample.foreign Sample.Base Sample.tpl) Sample.args0
        [Disable] Sample.heap0
      = (Ok (fresh (dom Sample.heap0)), <[fresh (dom Sample.heap0) := wB]> Sample.heapB)
    ∧ attribute_values wA "class"
      = default [] (attributes Sample.tpl !! "class") ++ [bound_rule]
    ∧ attribute_values wB "class"
      = default [] (attributes Sample.tpl !! "class") ++ [bound_rule]
    ∧ own wA !! flag_name = Some (mkProperty Observable (VBool (last_written [Disable])))
    ∧ own wB !! flag_name = Some (mkProperty PlainField (VBool (last_written [Disable]))).
Proof.
  apply (mixin_flag_not_observable Sample.foreign Sample.Base Sample.tpl Sample.args0
           Sample.heap0 Sample.heapA Sample.heapB Sample.viewA Sample.viewB [Disable]).
  - exact Sample_builds_A.
  - exact Sample_builds_B.
  - exact Sample_unshadowed.
Defined.

(** C9. [init] emits exactly one warning, with the identifier
    [easy-image-image-feature-missing] and the owning editor as its data,
    iff the editor has neither the [ImageBlockEditing] nor the
    [ImageInlineEditing] plugin; when it has at least one of them, nothing is
    emitted.  Emitting is all [init] does. *)
Theorem EasyImage_init_warns (this : EasyImage.Plugin) (console : list EasyImage.Warning) :
  (("ImageBlockEditing" ∉ EasyImage.plugins (EasyImage.editor this))
   ∧ ("ImageInlineEditing" ∉ EasyImage.plugins (EasyImage.editor this))
   ↔ EasyImage.init this console
     = console ++ [EasyImage.mkWarning "easy-image-image-feature-missing"
                     (EasyImage.editor this)])
  ∧ ("ImageBlockEditing" ∈ EasyImage.plugins (EasyImage.editor this)
     ∨ "ImageInlineEditing" ∈ EasyImage.plugins (EasyImage.editor this)
     ↔ EasyImage.init this console = console).
Proof.
  assert (Hlen : console ++ [EasyImage.mkWarning "easy-image-image-feature-missing"
                               (EasyImage.editor this)] ≠ console).
  { intros Heq%(f_equal length). rewrite length_app in Heq. simpl in Heq. lia. }
  unfold EasyImage.init, EasyImage.logWarning, EasyImage.has.
  destruct (decide ("ImageBlockEditing" ∈ EasyImage.plugins (EasyImage.editor this)))
    as [Hb | Hb];
    destruct (decide ("ImageInlineEditing" ∈ EasyImage.plugins (EasyImage.editor this)))
      as [Hi | Hi];
    rewrite ?(bool_decide_eq_true_2 _ Hb), ?(bool_decide_eq_false_2 _ Hb),
      ?(bool_decide_eq_true_2 _ Hi), ?(bool_decide_eq_false_2 _ Hi); simpl;
    (split; split); try tauto; intros Heq; try (symmetry in Heq); tauto.
Qed.

(** * Further properties of the code *)

(** ** The decorator and [initializeMixin] before the template is set *)

Lemma setTemplate_run (h : gmap nat View) (l : nat) (v : View) (t : Template) :
  h !! l = Some v →
  setTemplate l t h = (Ok tt, <[l := with_template (Some t) v]> h).
Proof. intros Hl. by apply update_run. Qed.

Lemma half_injected_get_disable (l : nat) (v : View) :
  get (half_injected l v) disable_name = VFunction (ArrowDisable l).
Proof.
  unfold half_injected. rewrite get_assign_ne by discriminate. apply get_assign_eq.
Qed.

Lemma half_injected_get_enable (l : nat) (v : View) :
  get (half_injected l v) enable_name = VFunction (ArrowEnable l).
Proof. apply get_assign_eq. Qed.

Lemma half_injected_equipped (l : nat) (v : View) : equipped l (half_injected l v).
Proof.
  left. split; [apply half_injected_get_disable | apply half_injected_get_enable].
Qed.

Lemma half_injected_flag (l : nat) (v : View) :
  own (half_injected l v) !! flag_name = Some (mkProperty Observable (VBool false)).
Proof.
  unfold half_injected. rewrite !own_assign_ne by discriminate.
  simpl. by rewrite lookup_insert_eq.
Qed.

(** X1. The decorator run on a view that has no template throws, out of
    [extendTemplate], after it has declared the flag and assigned the two
    control methods: these stay on the view and work, nothing has been
    merged, and no other object is touched.  Once the template is set, a
    second run succeeds and leaves exactly one copy of the bound rule after
    the template's own class entries. *)
Theorem inject_before_setTemplate (foreign : string → nat → M Value)
    (h : gmap nat View) (l : nat) (v : View) (t : Template) :
  h !! l = Some v → template v = None →
  ∃ v1 v2,
    injectCssTransitionDisabler l h = (Throw (TemplateMissing l), <[l := v1]> h)
    ∧ own v1 !! flag_name = Some (mkProperty Observable (VBool false))
    ∧ get v1 disable_name = VFunction (ArrowDisable l)
    ∧ get v1 enable_name = VFunction (ArrowEnable l)
    ∧ template v1 = None
    ∧ (∀ l', l' ≠ l → (<[l := v1]> h) !! l' = h !! l')
    ∧ fst ((disableCssTransitions foreign l;; read_flag l) (<[l := v1]> h))
      = Ok (VBool true)
    ∧ (setTemplate l t;; injectCssTransitionDisabler l) (<[l := v1]> h)
      = (Ok VUndefined, <[l := v2]> h)
    ∧ attribute_values v2 "class"
      = default [] (attributes t !! "class") ++ [bound_rule].
Proof.
  intros Hl Ht.
  exists (half_injected l v),
         (injected l t (with_template (Some t) (half_injected l v))).
  split; [by apply injectCssTransitionDisabler_throws |].
  split; [apply half_injected_flag |].
  split; [apply half_injected_get_disable |].
  split; [apply half_injected_get_enable |].
  split; [unfold half_injected; by rewrite !assign_view_template |].
  split; [intros l' Hl'; by apply lookup_insert_ne |].
  split.
  { change (disableCssTransitions foreign l) with (toggle foreign l Disable).
    rewrite bind_run.
    rewrite (toggle_run foreign _ _ _ Disable (lookup_insert_eq _ _ _)
               (half_injected_equipped l v)).
    rewrite (read_flag_run _ _ _ (lookup_insert_eq _ _ _)).
    by rewrite get_assign_eq. }
  split.
  { rewrite bind_run, (setTemplate_run _ _ _ _ (lookup_insert_eq _ _ _)).
    rewrite insert_insert_eq.
    rewrite (injectCssTransitionDisabler_run _ _ _ t (lookup_insert_eq _ _ _)) by done.
    by rewrite insert_insert_eq. }
  apply injected_class.
Qed.

Lemma inject_before_setTemplate_witness :
  ∃ v1 v2,
    injectCssTransitionDisabler 3 Sample.heap0
    = (Throw (TemplateMissing 3), <[3 := v1]> Sample.heap0)
    ∧ own v1 !! flag_name = Some (mkProperty Observable (VBool false))
    ∧ get v1 disable_name = VFunction (ArrowDisable 3)
    ∧ get v1 enable_name = VFunction (ArrowEnable 3)
    ∧ template v1 = None
    ∧ (∀ l', l' ≠ 3 → (<[3 := v1]> Sample.heap0) !! l' = Sample.heap0 !! l')
    ∧ fst ((disableCssTransitions Sample.foreign 3;; read_flag 3) (<[3 := v1]> Sample.heap0))
      = Ok (VBool true)
    ∧ (setTemplate 3 Sample.tpl;; injectCssTransitionDisabler 3) (<[3 := v1]> Sample.heap0)
      = (Ok VUndefined, <[3 := v2]> Sample.heap0)
    ∧ attribute_values v2 "class"
      = default [] (attributes Sample.tpl !! "class") ++ [bound_rule].
Proof.
  apply (inject_before_setTemplate Sample.foreign Sample.heap0 3 Sample.bare Sample.tpl).
  - vm_compute; reflexivity.
  - reflexivity.
Defined.

Lemma initializeMixin_missing (foreign : string → nat → M Value)
    (h : gmap nat View) (l : nat) (v : View) :
  h !! l = Some v → template v = None →
  get v initialize_name = VFunction MixinInitialize →
  initializeMixin foreign l h = (Throw (TemplateMissing l), h).
Proof.
  intros Hl Ht Hi. unfold initializeMixin.
  rewrite (call_run _ _ _ _ _ _ Hl Hi). simpl.
  by rewrite bind_run, (extendTemplate_missing _ _ _ _ Hl Ht).
Qed.

(** X2. [initializeMixin] called on an instance of a mixin-composed class
    that has no template throws, out of [extendTemplate], and merges nothing:
    the view still has no template, the flag reads what it read and the two
    control methods are the mixin's and go on working.  Once the template is
    set, the call succeeds and leaves exactly one copy of the bound rule
    after the template's own class entries, and the flag still reads what it
    read. *)
Theorem initializeMixin_before_setTemplate (foreign : string → nat → M Value)
    (base : Class) (h : gmap nat View) (l : nat) (v : View) (t : Template) :
  h !! l = Some v → template v = None → unshadowed base v →
  ∃ v1 w,
    initializeMixin foreign l h = (Throw (TemplateMissing l), <[l := v1]> h)
    ∧ get v1 flag_name = get v flag_name
    ∧ get v1 disable_name = VFunction MixinDisable
    ∧ get v1 enable_name = VFunction MixinEnable
    ∧ template v1 = None
    ∧ fst ((disableCssTransitions foreign l;; read_flag l) (<[l := v1]> h))
      = Ok (VBool true)
    ∧ (setTemplate l t;; initializeMixin foreign l) (<[l := v1]> h)
      = (Ok VUndefined, <[l := w]> h)
    ∧ attribute_values w "class"
      = default [] (attributes t !! "class") ++ [bound_rule]
    ∧ get w flag_name = get v flag_name.
Proof.
  intros Hl Ht Hu.
  destruct (unshadowed_get _ _ Hu) as (Hd & He & Hi).
  assert (Hv : equipped l v) by (right; done).
  exists v, (with_template (Some (Template_extend t transition_definition))
               (with_template (Some t) v)).
  rewrite (insert_id _ _ _ Hl).
  split; [by apply (initializeMixin_missing _ _ _ v) |].
  split; [done |]. split; [done |]. split; [done |]. split; [done |].
  split.
  { change (disableCssTransitions foreign l) with (toggle foreign l Disable).
    rewrite bind_run, (toggle_run foreign _ _ _ Disable Hl Hv).
    rewrite (read_flag_run _ _ _ (lookup_insert_eq _ _ _)).
    by rewrite get_assign_eq. }
  split.
  { rewrite bind_run, (setTemplate_run _ _ _ _ Hl).
    rewrite (initializeMixin_run _ _ _ _ t (lookup_insert_eq _ _ _)) by done.
    by rewrite insert_insert_eq. }
  split; [apply attribute_values_extend_class | reflexivity].
Qed.

Lemma SampleMore_unshadowed : unshadowed Sample.Base (mixed Sample.viewB).
Proof. repeat split; vm_compute; reflexivity. Defined.

Lemma initializeMixin_before_setTemplate_witness :
  ∃ v1 w,
    initializeMixin Sample.foreign (fresh (dom Sample.heap0)) SampleMore.heapN
    = (Throw (TemplateMissing (fresh (dom Sample.heap0))),
       <[fresh (dom Sample.heap0) := v1]> SampleMore.heapN)
    ∧ get v1 flag_name = get (mixed Sample.viewB) flag_name
    ∧ get v1 disable_name = VFunction MixinDisable
    ∧ get v1 enable_name = VFunction MixinEnable
    ∧ template v1 = None
    ∧ fst ((disableCssTransitions Sample.foreign (fresh (dom Sample.heap0));;
            read_flag (fresh (dom Sample.heap0)))
             (<[fresh (dom Sample.heap0) := v1]> SampleMore.heapN)) = Ok (VBool true)
    ∧ (setTemplate (fresh (dom Sample.heap0)) Sample.tpl;;
       initializeMixin Sample.foreign (fresh (dom Sample.heap0)))
        (<[fresh (dom Sample.heap0) := v1]> SampleMore.heapN)
      = (Ok VUndefined, <[fresh (dom Sample.heap0) := w]> SampleMore.heapN)
    ∧ attribute_values w "class"
      = default [] (attributes Sample.tpl !! "class") ++ [bound_rule]
    ∧ get w flag_name = get (mixed Sample.viewB) flag_name.
Proof.
  apply (initializeMixin_before_setTemplate Sample.foreign Sample.Base SampleMore.heapN
           (fresh (dom Sample.heap0)) (mixed Sample.viewB) Sample.tpl).
  - vm_compute; reflexivity.
  - vm_compute; reflexivity.
  - exact SampleMore_unshadowed.
Defined.

(** ** Stacking the mixin *)

Lemma mixed_mixed (v : View) : mixed (mixed v) = mixed v.
Proof. unfold mixed, define_field_view, with_own; simpl. by rewrite insert_insert_eq. Qed.

Lemma define_field_twice (l : nat) (h : gmap nat View) :
  (define_field l flag_name (VBool false);; define_field l flag_name (VBool false)) h
  = define_field l flag_name (VBool false) h.
Proof.
  rewrite bind_run. unfold define_field at 1 3, update.
  destruct (h !! l) as [v|] eqn:Hl; [| done].
  unfold define_field. rewrite (update_run _ _ _ _ (lookup_insert_eq _ _ _)).
  rewrite insert_insert_eq. f_equal. f_equal. apply mixed_mixed.
Qed.

(** X4. Applying the mixin to a class that already has it changes nothing
    for the instances: the methods reached through the prototype chain are
    the same, the constructor has the same outcome on every store, whether
    the base constructor returns or throws, and so [new] gives the same
    instance in the same store. *)
Theorem CssTransitionMixin_stacked (base : Class) :
  prototype (CssTransitionMixin (CssTransitionMixin base))
  = prototype (CssTransitionMixin base)
  ∧ (∀ this args h,
       ctor (CssTransitionMixin (CssTransitionMixin base)) this args h
       = ctor (CssTransitionMixin base) this args h)
  ∧ (∀ args h,
       new_ (CssTransitionMixin (CssTransitionMixin base)) args h
       = new_ (CssTransitionMixin base) args h).
Proof.
  assert (Hp : prototype (CssTransitionMixin (CssTransitionMixin base))
               = prototype (CssTransitionMixin base)).
  { simpl. by rewrite (assoc_L (∪)), (idemp_L (∪)). }
  assert (Hc : ∀ this args h,
             ctor (CssTransitionMixin (CssTransitionMixin base)) this args h
             = ctor (CssTransitionMixin base) this args h).
  { intros this args h. simpl. rewrite !bind_run.
    destruct (ctor base this args h) as [[[]|e] h1]; [| done].
    apply (define_field_twice this h1). }
  split; [exact Hp |]. split; [exact Hc |].
  intros args h. unfold new_. rewrite !bind_run. unfold alloc.
  rewrite Hp, !bind_run, Hc. done.
Qed.

(** ** Which view a control method writes to *)

Lemma copy_property_run (h : gmap nat View) (src dst : nat) (vs vd : View)
    (name : string) :
  h !! src = Some vs → h !! dst = Some vd →
  copy_property src dst name h
  = (Ok tt, <[dst := assign_view name (get vs name) vd]> h).
Proof.
  intros Hs Hd. unfold copy_property, assign.
  by rewrite bind_run, (load_run _ _ _ Hs), (update_run _ _ _ _ Hd).
Qed.

(** X5. The control methods the decorator assigns are arrow functions that
    close over the decorated view: handed to another view and called there,
    [disableCssTransitions] still sets the flag of the decorated view and
    leaves the flag of the view it was called on alone.  The methods of the
    mixin class write to [this]: handed to another view and called there,
    the method sets the flag of that view and leaves the instance it came
    from untouched. *)
Theorem control_methods_receiver (foreign : string → nat → M Value)
    (h : gmap nat View) (l1 l2 l3 : nat) (v1 v2 v3 : View) (t : Template) :
  l1 ≠ l2 → h !! l1 = Some v1 → h !! l2 = Some v2 → template v1 = Some t →
  l3 ≠ l2 → h !! l3 = Some v3 → get v3 disable_name = VFunction MixinDisable →
  (∃ w1 w2,
     (injectCssTransitionDisabler l1;;
      copy_property l1 l2 disable_name;;
      call foreign l2 disable_name) h
     = (Ok VUndefined, <[l2 := w2]> (<[l1 := w1]> h))
     ∧ get w1 flag_name = VBool true
     ∧ own w2 !! flag_name = own v2 !! flag_name
     ∧ get w2 flag_name = get v2 flag_name)
  ∧ (∃ w2,
       (copy_property l3 l2 disable_name;; call foreign l2 disable_name) h
       = (Ok VUndefined, <[l2 := w2]> h)
       ∧ get w2 flag_name = VBool true
       ∧ (<[l2 := w2]> h) !! l3 = Some v3).
Proof.
  intros Hne Hl1 Hl2 Ht Hne3 Hl3 Hm. split.
  - set (i1 := injected l1 t v1).
    set (a2 := assign_view disable_name (VFunction (ArrowDisable l1)) v2).
    exists (assign_view flag_name (VBool true) i1), a2.
    split; [| split; [apply get_assign_eq | split]].
    + rewrite bind_run, (injectCssTransitionDisabler_run _ _ _ _ Hl1 Ht).
      rewrite bind_run.
      rewrite (copy_property_run _ l1 l2 i1 v2);
        [| apply lookup_insert_eq | by rewrite lookup_insert_ne].
      unfold i1 at 1. rewrite injected_get_disable. fold a2.
      rewrite (call_run foreign _ l2 a2 disable_name (ArrowDisable l1));
        [| apply lookup_insert_eq | apply get_assign_eq].
      simpl.
      rewrite (assign_flag_run _ l1 i1 true);
        [| rewrite lookup_insert_ne by done; apply lookup_insert_eq].
      rewrite (insert_insert_ne _ l1 l2) by done.
      by rewrite insert_insert_eq.
    + unfold a2. by rewrite own_assign_ne.
    + unfold a2. by rewrite get_assign_ne.
  - set (a2 := assign_view disable_name (VFunction MixinDisable) v2).
    exists (assign_view flag_name (VBool true) a2).
    split; [| split; [apply get_assign_eq | by rewrite lookup_insert_ne]].
    rewrite bind_run, (copy_property_run _ l3 l2 v3 v2 _ Hl3 Hl2), Hm. fold a2.
    rewrite (call_run foreign _ l2 a2 disable_name MixinDisable);
      [| apply lookup_insert_eq | apply get_assign_eq].
    simpl.
    rewrite (assign_flag_run _ l2 a2 true) by apply lookup_insert_eq.
    by rewrite insert_insert_eq.
Qed.

Lemma control_methods_receiver_witness :
  (∃ w1 w2,
     (injectCssTransitionDisabler 7;;
      copy_property 7 3 disable_name;;
      call Sample.foreign 3 disable_name) Sample.heapM
     = (Ok VUndefined, <[3 := w2]> (<[7 := w1]> Sample.heapM))
     ∧ get w1 flag_name = VBool true
     ∧ own w2 !! flag_name = own Sample.bare !! flag_name
     ∧ get w2 flag_name = get Sample.bare flag_name)
  ∧ (∃ w2,
       (copy_property (fresh (dom Sample.heap0)) 3 disable_name;;
        call Sample.foreign 3 disable_name) Sample.heapM
       = (Ok VUndefined, <[3 := w2]> Sample.heapM)
       ∧ get w2 flag_name = VBool true
       ∧ (<[3 := w2]> Sample.heapM) !! fresh (dom Sample.heap0) = Some Sample.viewM).
Proof.
  apply (control_methods_receiver Sample.foreign Sample.heapM 7 3
           (fresh (dom Sample.heap0)) Sample.view0 Sample.bare Sample.viewM Sample.tpl).
  - discriminate.
  - vm_compute; reflexivity.
  - vm_compute; reflexivity.
  - reflexivity.
  - vm_compute; discriminate.
  - vm_compute; reflexivity.
  - vm_compute; reflexivity.
Defined.

(** ** Enabling after disabling *)

(** X6. On a view that carries the capability and whose flag holds [false],
    [disableCssTransitions()] followed by [enableCssTransitions()] returns
    normally and brings the view back: own properties, prototype chain and
    template are what they were.  When the flag is a plain field, as on an
    instance of a mixin-composed class, the whole store is what it was. *)
Theorem enable_undoes_disable (foreign : string → nat → M Value)
    (h : gmap nat View) (l : nat) (v : View) (k : PropKind) :
  h !! l = Some v → equipped l v →
  own v !! flag_name = Some (mkProperty k (VBool false)) →
  ∃ w,
    (disableCssTransitions foreign l;; enableCssTransitions foreign l) h
    = (Ok VUndefined, <[l := w]> h)
    ∧ same_state v w
    ∧ get w flag_name = VBool false
    ∧ (k = PlainField → <[l := w]> h = h).
Proof.
  intros Hl Hv Hk.
  set (d := assign_view flag_name (VBool true) v).
  set (w := assign_view flag_name (VBool false) d).
  assert (Hown : own w = own v ∧ (k = PlainField → fired w = fired v)).
  { unfold w, d, assign_view. rewrite Hk. destruct k; simpl;
      rewrite lookup_insert_eq; simpl;
      rewrite insert_insert_eq, (insert_id _ _ _ Hk); done. }
  exists w.
  split.
  { change (disableCssTransitions foreign l) with (toggle foreign l Disable).
    change (enableCssTransitions foreign l) with (toggle foreign l Enable).
    rewrite bind_run, (toggle_run foreign _ _ _ Disable Hl Hv).
    rewrite (toggle_run foreign _ _ _ Enable (lookup_insert_eq _ _ _)
               (equipped_assign_flag _ _ _ Hv)).
    by rewrite insert_insert_eq. }
  split.
  { split; [by destruct Hown | split].
    - unfold w, d. by rewrite !assign_view_proto.
    - unfold w, d. by rewrite !assign_view_template. }
  split; [apply get_assign_eq |].
  intros Hplain. apply insert_id. rewrite Hl. f_equal.
  destruct Hown as [Ho Hf]. specialize (Hf Hplain).
  assert (Hp : proto w = proto v) by (unfold w, d; by rewrite !assign_view_proto).
  assert (Ht : template w = template v) by (unfold w, d; by rewrite !assign_view_template).
  destruct v, w; simpl in *; congruence.
Qed.

Lemma enable_undoes_disable_witness :
  ∃ w,
    (disableCssTransitions Sample.foreign (fresh (dom Sample.heap0));;
     enableCssTransitions Sample.foreign (fresh (dom Sample.heap0))) Sample.heapM
    = (Ok VUndefined, <[fresh (dom Sample.heap0) := w]> Sample.heapM)
    ∧ same_state Sample.viewM w
    ∧ get w flag_name = VBool false
    ∧ (PlainField = PlainField → <[fresh (dom Sample.heap0) := w]> Sample.heapM = Sample.heapM).
Proof.
  apply (enable_undoes_disable Sample.foreign Sample.heapM (fresh (dom Sample.heap0))
           Sample.viewM PlainField).
  - vm_compute; reflexivity.
  - right; split; vm_compute; reflexivity.
  - vm_compute; reflexivity.
Defined.

(** ** Easy Image: repeated initialisation *)

(** X7. [init] keeps no record of having warned: run [k] times on an editor
    that has neither image-editing plugin, it emits [k] warnings, each with
    the same identifier and editor, after what the console already held; run
    any number of times on an editor that has one of them, it leaves the
    console as it is. *)
Theorem EasyImage_init_repeated (this : EasyImage.Plugin)
    (console : list EasyImage.Warning) (k : nat) :
  Nat.iter k (EasyImage.init this) console
  = if EasyImage.has (EasyImage.editor this) "ImageBlockEditing"
       || EasyImage.has (EasyImage.editor this) "ImageInlineEditing"
    then console
    else console ++ replicate k (EasyImage.mkWarning "easy-image-image-feature-missing"
                                   (EasyImage.editor this)).
Proof.
  induction k as [|k IH]; simpl.
  - destruct (_ || _); [done | by rewrite app_nil_r].
  - rewrite IH. unfold EasyImage.init, EasyImage.logWarning.
    destruct (EasyImage.has (EasyImage.editor this) "ImageBlockEditing"),
             (EasyImage.has (EasyImage.editor this) "ImageInlineEditing"); simpl; try done.
    rewrite <- app_assoc. f_equal.
    change (?x :: replicate k ?x) with (replicate (S k) x).
    by rewrite <- replicate_S_end.
Qed.
